(** * Course popularity analysis (utils.py)

    A shallow embedding of the functions of [utils.py] that tally student
    preferences per course, rank the courses, plot the ranking and save it,
    followed by the properties proved about them.

    Modelling conventions.
    - Python exceptions are values of [exn]; a computation that may raise
      has type [result A].  [try ... except ValueError] is [catch_ValueError].
    - Integers are [Z].  Floating point numbers are represented by the
      rational they denote ([Q]); the rounding of binary64 is not modelled,
      so course identifiers are taken in the range where [float] is exact.
    - Strings are [string] (ASCII labels).
    - A preference [DataFrame] is the list of its labelled columns, in
      column order; pandas readers hand out frames whose labels are
      pairwise distinct, which the statements that need it assume as
      [NoDup (columns df)].
    - [sort_values] is the pandas routine.  Its default algorithm
      (kind='quicksort') promises a sorted rearrangement and nothing about
      the relative order of equal keys, so it is taken through the interface
      [SortValues]; two executable instances are given. *)

From Stdlib Require Import ZArith QArith List String Ascii Bool Lia.
From Stdlib Require Import Permutation Sorted.
From Stdlib Require Import Decimal DecimalString DecimalZ.
Import ListNotations.

Open Scope string_scope.
Open Scope Z_scope.

(** ** Python values, exceptions and built-ins *)

Module Py.

Inductive exn : Type :=
| AttributeError (msg : string)
| ValueError (msg : string)
| IndexError (msg : string)
| KeyError (key : string)
| OSError (msg : string).

Definition exn_str (e : exn) : string :=
  match e with
  | AttributeError m | ValueError m | IndexError m | OSError m => m
  | KeyError k => "'" ++ k ++ "'"
  end.

Inductive result (A : Type) : Type :=
| Ok (a : A)
| Raise (e : exn).

Arguments Ok {A} a.
Arguments Raise {A} e.

Definition bind {A B : Type} (c : result A) (k : A -> result B) : result B :=
  match c with
  | Ok a => k a
  | Raise e => Raise e
  end.

(** [try: body / except ValueError: handler]; any other exception goes on. *)
Definition catch_ValueError {A : Type} (body : result A) (handler : result A)
  : result A :=
  match body with
  | Raise (ValueError _) => handler
  | other => other
  end.

(** A [for] loop whose body may raise: the first exception ends the loop. *)
Fixpoint for_each {S X : Type} (body : S -> X -> result S)
  (xs : list X) (s : S) : result S :=
  match xs with
  | [] => Ok s
  | x :: rest => bind (body s x) (for_each body rest)
  end.

(** [str(n)] for an integer. *)
Definition str (n : Z) : string := NilZero.string_of_int (Z.to_int n).

(** [int(s)] on a string: an optional sign and decimal digits.  (Python
    also accepts surrounding blanks and underscores between digits; neither
    occurs in the output of [str] nor in a single character.) *)
Definition int (s : string) : result Z :=
  let parsed :=
    match s with
    | String "+"%char rest => option_map Pos (NilZero.uint_of_string rest)
    | _ => NilZero.int_of_string s
    end in
  match parsed with
  | Some d => Ok (Z.of_int d)
  | None => Raise (ValueError ("invalid literal for int() with base 10: '" ++ s ++ "'"))
  end.

(** [float(s)] on the decimal rendering of an integer, the only strings
    the program passes to it. *)
Definition float (s : string) : result Q :=
  match int s with
  | Ok z => Ok (inject_Z z)
  | Raise _ => Raise (ValueError ("could not convert string to float: '" ++ s ++ "'"))
  end.

(** [s[-1]] *)
Fixpoint last_char (s : string) : result ascii :=
  match s with
  | EmptyString => Raise (IndexError "string index out of range")
  | String c EmptyString => Ok c
  | String _ rest => last_char rest
  end.

(** [s.startswith(p)] *)
Definition startswith (p s : string) : bool := String.prefix p s.

(** Truth value of an optional string argument ([if output_dir:]). *)
Definition truthy_str (o : option string) : bool :=
  match o with
  | None => false
  | Some s => negb (String.eqb s "")
  end.

End Py.

Import Py.

Declare Scope py_scope.
Delimit Scope py_scope with py.
Notation "x <- c ;; k" := (bind c (fun x => k))
  (at level 61, c at next level, right associativity) : py_scope.
Open Scope py_scope.

(** ** Tables *)

Module Pandas.

(** A cell of the preference sheet: missing, a number, or text. *)
Inductive cell : Type :=
| NaN
| Num (v : Q)
| Text (s : string).

Definition Series := list cell.

(** The preference table: labelled columns, in column order. *)
Definition DataFrame := list (string * Series).

Definition columns (df : DataFrame) : list string := map fst df.

(** [df[col]] *)
Fixpoint getitem (df : DataFrame) (col : string) : result Series :=
  match df with
  | [] => Raise (KeyError col)
  | (label, s) :: rest => if String.eqb label col then Ok s else getitem rest col
  end.

(** [cell == x] for a float [x]: a missing cell and a text cell are never
    equal to a number. *)
Definition cell_eq (x : Q) (c : cell) : bool :=
  match c with
  | Num v => Qeq_bool v x
  | NaN | Text _ => false
  end.

(** [(series == x).sum()] *)
Definition count_eq (s : Series) (x : Q) : Z :=
  Z.of_nat (List.length (filter (cell_eq x) s)).

(** The course catalogue: one row per course, columns 'CourseID' and 'name'. *)
Record CourseRow : Type := { CourseID : Z; name : string }.

Definition CourseFrame := list CourseRow.

(** [series.iloc[0]] *)
Definition iloc0 {A : Type} (s : list A) : result A :=
  match s with
  | [] => Raise (IndexError "single positional indexer is out-of-bounds")
  | a :: _ => Ok a
  end.

(** A Python dict with string keys: insertion ordered, and assigning to a
    key already present keeps the key where it is. *)
Definition dict (V : Type) := list (string * V).

Fixpoint dict_set {V : Type} (d : dict V) (k : string) (v : V) : dict V :=
  match d with
  | [] => [(k, v)]
  | (k', v') :: rest =>
      if String.eqb k' k then (k, v) :: rest else (k', v') :: dict_set rest k v
  end.

Definition keys {V : Type} (d : dict V) : list string := map fst d.

Fixpoint dict_get {V : Type} (d : dict V) (k : string) : option V :=
  match d with
  | [] => None
  | (k', v) :: rest => if String.eqb k' k then Some v else dict_get rest k
  end.

(** Values held by the popularity table. *)
Inductive value : Type :=
| VInt (z : Z)
| VFloat (q : Q)
| VStr (s : string).

(** One entry of [course_popularity]; [course_name] is stored under the
    key 'name'. *)
Record PopularityRecord : Type := {
  course_id : Z;
  course_name : string;
  pref_1 : Z;
  pref_2 : Z;
  pref_3 : Z;
  pref_4 : Z;
  total_mentions : Z;
  weighted_score : Z;
  avg_pref : Q
}.

Definition record_items (r : PopularityRecord) : dict value :=
  [ ("course_id", VInt (course_id r));
    ("name", VStr (course_name r));
    ("pref_1", VInt (pref_1 r));
    ("pref_2", VInt (pref_2 r));
    ("pref_3", VInt (pref_3 r));
    ("pref_4", VInt (pref_4 r));
    ("total_mentions", VInt (total_mentions r));
    ("weighted_score", VInt (weighted_score r));
    ("avg_pref", VFloat (avg_pref r)) ].

(** The popularity table: column labels, and rows labelled by the index. *)
Record PopularityFrame : Type := {
  pf_columns : list string;
  pf_rows : list (string * PopularityRecord)
}.

(** [pd.DataFrame.from_dict(d, orient='index')]: one row per key, in dict
    order; the columns are the keys of the inner dicts. *)
Definition from_dict_index (d : dict PopularityRecord) : PopularityFrame :=
  {| pf_columns :=
       match d with
       | [] => []
       | (_, r) :: _ => keys (record_items r)
       end;
     pf_rows := d |}.

(** [pd.DataFrame(columns=cols)] *)
Definition DataFrame_columns (cols : list string) : PopularityFrame :=
  {| pf_columns := cols; pf_rows := [] |}.

(** [df.empty]: some axis has length zero. *)
Definition empty (f : PopularityFrame) : bool :=
  match pf_columns f, pf_rows f with
  | _ :: _, _ :: _ => false
  | _, _ => true
  end.

(** Order on values of a column: numbers by magnitude, strings
    lexicographically, numbers before strings. *)
Definition value_leb (a b : value) : bool :=
  match a, b with
  | VInt x, VInt y => x <=? y
  | VInt x, VFloat y => Qle_bool (inject_Z x) y
  | VFloat x, VInt y => Qle_bool x (inject_Z y)
  | VFloat x, VFloat y => Qle_bool x y
  | VStr x, VStr y => String.leb x y
  | VStr _, _ => false
  | _, VStr _ => true
  end.

(** [a] may stand before [b] in a column sorted ascending or descending. *)
Definition in_order (ascending : bool) (a b : value) : Prop :=
  if ascending then value_leb a b = true else value_leb b a = true.

Definition row := (string * PopularityRecord)%type.

(** The sorting routine behind [sort_values]: rows come paired with their
    key.  The result is a rearrangement of the argument in which the keys
    are in order; nothing is promised about rows with equal keys. *)
Class SortValues : Type := {
  argsort : bool -> list (value * row) -> list (value * row);
  argsort_perm : forall ascending l, Permutation l (argsort ascending l);
  argsort_sorted : forall ascending l,
    Sorted (fun a b => in_order ascending (fst a) (fst b)) (argsort ascending l)
}.

(** The column [by] of a row. *)
Definition row_key (by_ : string) (r : row) : result (value * row) :=
  match dict_get (record_items (snd r)) by_ with
  | Some v => Ok (v, r)
  | None => Raise (KeyError by_)
  end.

Fixpoint keyed_rows (by_ : string) (rows : list row) : result (list (value * row)) :=
  match rows with
  | [] => Ok []
  | r :: rest =>
      kr <- row_key by_ r ;;
      krs <- keyed_rows by_ rest ;;
      Ok (kr :: krs)
  end.

(** [df.sort_values(by, ascending=...)] *)
Definition sort_values `{SortValues} (f : PopularityFrame) (by_ : string)
  (ascending : bool) : result PopularityFrame :=
  if existsb (String.eqb by_) (pf_columns f) then
    keyed <- keyed_rows by_ (pf_rows f) ;;
    Ok {| pf_columns := pf_columns f;
          pf_rows := map snd (argsort ascending keyed) |}
  else Raise (KeyError by_).

End Pandas.

Import Pandas.

(** ** analyze_course_popularity *)

(** [pref_counts]: the dict with the fixed keys 1, 2, 3 and 4. *)
Record PrefCounts : Type := { n1 : Z; n2 : Z; n3 : Z; n4 : Z }.

Definition pref_counts_init : PrefCounts :=
  {| n1 := 0; n2 := 0; n3 := 0; n4 := 0 |}.

(** [pref_rank in pref_counts] *)
Definition has_rank (pref_rank : Z) : bool :=
  existsb (Z.eqb pref_rank) [1; 2; 3; 4].

(** [pref_counts[pref_rank]] *)
Definition get_count (pc : PrefCounts) (pref_rank : Z) : Z :=
  if pref_rank =? 1 then n1 pc
  else if pref_rank =? 2 then n2 pc
  else if pref_rank =? 3 then n3 pc
  else if pref_rank =? 4 then n4 pc
  else 0.

(** [pref_counts[pref_rank] += k] *)
Definition add_count (pc : PrefCounts) (pref_rank k : Z) : PrefCounts :=
  if pref_rank =? 1 then {| n1 := n1 pc + k; n2 := n2 pc; n3 := n3 pc; n4 := n4 pc |}
  else if pref_rank =? 2 then {| n1 := n1 pc; n2 := n2 pc + k; n3 := n3 pc; n4 := n4 pc |}
  else if pref_rank =? 3 then {| n1 := n1 pc; n2 := n2 pc; n3 := n3 pc + k; n4 := n4 pc |}
  else if pref_rank =? 4 then {| n1 := n1 pc; n2 := n2 pc; n3 := n3 pc; n4 := n4 pc + k |}
  else pc.

(** [sum(pref_counts.values())] *)
Definition sum_values (pc : PrefCounts) : Z :=
  fold_left Z.add [n1 pc; n2 pc; n3 pc; n4 pc] 0.

(** The prefix that marks a preference column. *)
Definition pref_prefix : string := "kurz".

(** The columns starting with 'kurz'. *)
Definition pref_columns (preferences_df : DataFrame) : list string :=
  filter (startswith pref_prefix) (columns preferences_df).

(** The body of the loop over the preference columns, for one course. *)
Definition tally_column (preferences_df : DataFrame) (course_id : string)
  (pref_counts : PrefCounts) (col : string) : result PrefCounts :=
  catch_ValueError
    (c <- last_char col ;;
     pref_rank <- int (String c EmptyString) ;;
     if has_rank pref_rank then
       s <- getitem preferences_df col ;;
       x <- float course_id ;;
       Ok (add_count pref_counts pref_rank (count_eq s x))
     else Ok pref_counts)
    (Ok pref_counts).

(** The counts of one course after the loop over the preference columns. *)
Definition tally (preferences_df : DataFrame) (course_id : string)
  : result PrefCounts :=
  for_each (tally_column preferences_df course_id)
    (pref_columns preferences_df) pref_counts_init.

(** [4*pref_counts[1] + 3*pref_counts[2] + 2*pref_counts[3] + 1*pref_counts[4]] *)
Definition weighted (pc : PrefCounts) : Z :=
  4 * get_count pc 1 + 3 * get_count pc 2 + 2 * get_count pc 3 + 1 * get_count pc 4.

(** [weighted_score / total_mentions if total_mentions > 0 else 0] *)
Definition avg_pref_of (weighted_score total_mentions : Z) : Q :=
  if 0 <? total_mentions
  then (inject_Z weighted_score / inject_Z total_mentions)%Q
  else 0%Q.

(** [courses_df[courses_df['CourseID'] == n]['name'].iloc[0]] *)
Definition lookup_name (courses_df : CourseFrame) (n : Z) : result string :=
  iloc0 (map name (filter (fun r => CourseID r =? n) courses_df)).

(** The body of the loop over the course identifiers. *)
Definition process_course (preferences_df : DataFrame) (courses_df : CourseFrame)
  (course_popularity : dict PopularityRecord) (course_id : string)
  : result (dict PopularityRecord) :=
  pref_counts <- tally preferences_df course_id ;;
  let weighted_score := weighted pref_counts in
  let total_mentions := sum_values pref_counts in
  if 0 <? total_mentions then
    n <- int course_id ;;
    course_name <- lookup_name courses_df n ;;
    n' <- int course_id ;;
    Ok (dict_set course_popularity course_id
          {| course_id := n';
             course_name := course_name;
             pref_1 := get_count pref_counts 1;
             pref_2 := get_count pref_counts 2;
             pref_3 := get_count pref_counts 3;
             pref_4 := get_count pref_counts 4;
             total_mentions := total_mentions;
             weighted_score := weighted_score;
             avg_pref := avg_pref_of weighted_score total_mentions |})
  else Ok course_popularity.

(** [courses_df['CourseID'].astype(str)] *)
Definition course_ids (courses_df : CourseFrame) : list string :=
  map (fun r => str (CourseID r)) courses_df.

(** The dict [course_popularity] when the loop over the courses ends. *)
Definition build_popularity (preferences_df : DataFrame) (courses_df : CourseFrame)
  : result (dict PopularityRecord) :=
  for_each (process_course preferences_df courses_df) (course_ids courses_df) [].

(** The columns of the empty result. *)
Definition schema : list string :=
  ["course_id"; "name"; "pref_1"; "pref_2"; "pref_3"; "pref_4";
   "total_mentions"; "weighted_score"; "avg_pref"].

(** [analyze_course_popularity(preferences_df, courses_df)].  The first
    argument is whatever [load_student_preferences] returned: a frame, or
    [None], on which [.columns] raises AttributeError. *)
Definition analyze_course_popularity `{SortValues}
  (preferences_df : option DataFrame) (courses_df : CourseFrame)
  : result PopularityFrame :=
  match preferences_df with
  | None => Raise (AttributeError "'NoneType' object has no attribute 'columns'")
  | Some df =>
      course_popularity <- build_popularity df courses_df ;;
      match course_popularity with
      | _ :: _ =>
          let popularity_df := from_dict_index course_popularity in
          sort_values popularity_df "weighted_score" false
      | [] => Ok (DataFrame_columns schema)
      end
  end.

(** ** Two sorting routines that meet [SortValues] *)

Module Sorters.

Section Insertion.

(** [before a b]: a row with key [a] is put in front of one with key [b]. *)
Variable before : value -> value -> bool.
Variable ord : value -> value -> Prop.
Hypothesis before_true : forall a b, before a b = true -> ord a b.
Hypothesis before_false : forall a b, before a b = false -> ord b a.

Fixpoint insert (x : value * row) (l : list (value * row)) : list (value * row) :=
  match l with
  | [] => [x]
  | y :: rest =>
      if before (fst x) (fst y) then x :: y :: rest else y :: insert x rest
  end.

Definition insertion_sort (l : list (value * row)) : list (value * row) :=
  fold_right insert [] l.

Lemma insert_perm x l : Permutation (x :: l) (insert x l).
Proof.
  induction l as [|y rest IH]; simpl.
  - apply Permutation_refl.
  - destruct (before (fst x) (fst y)).
    + apply Permutation_refl.
    + eapply perm_trans; [apply perm_swap|]. now apply perm_skip.
Qed.

Lemma insertion_sort_perm l : Permutation l (insertion_sort l).
Proof.
  induction l as [|x rest IH]; simpl.
  - constructor.
  - eapply perm_trans; [apply perm_skip, IH | apply insert_perm].
Qed.

Lemma insert_hd y x l :
  ord (fst y) (fst x) ->
  HdRel (fun a b => ord (fst a) (fst b)) y l ->
  HdRel (fun a b => ord (fst a) (fst b)) y (insert x l).
Proof.
  intros Hyx Hl. destruct l as [|z rest]; simpl.
  - now constructor.
  - destruct (before (fst x) (fst z)); constructor; trivial.
    now inversion Hl.
Qed.

Lemma insert_sorted x l :
  Sorted (fun a b => ord (fst a) (fst b)) l ->
  Sorted (fun a b => ord (fst a) (fst b)) (insert x l).
Proof.
  induction 1 as [|y rest Hs IH Hhd]; simpl.
  - repeat constructor.
  - destruct (before (fst x) (fst y)) eqn:E.
    + constructor; [now constructor|]. constructor. now apply before_true.
    + constructor; [exact IH|]. apply insert_hd; trivial. now apply before_false.
Qed.

Lemma insertion_sort_sorted l :
  Sorted (fun a b => ord (fst a) (fst b)) (insertion_sort l).
Proof.
  induction l as [|x rest IH]; simpl; [constructor | now apply insert_sorted].
Qed.

End Insertion.

Lemma Qle_bool_total x y : Qle_bool x y = false -> Qle_bool y x = true.
Proof.
  intros H. apply Qle_bool_iff. apply Qlt_le_weak, Qnot_le_lt.
  intros Hle. apply Qle_bool_iff in Hle. congruence.
Qed.

Lemma value_leb_total a b : value_leb a b = false -> value_leb b a = true.
Proof.
  destruct a, b; simpl; intros H; trivial; try discriminate;
    try (now apply Qle_bool_total).
  - apply Z.leb_le. apply Z.leb_gt in H. lia.
  - destruct (String.leb_total s s0); congruence.
Qed.

(** [a] goes in front of [b] when they are in order: equal keys keep the
    order they came in. *)
Definition before_stable (ascending : bool) (a b : value) : bool :=
  if ascending then value_leb a b else value_leb b a.

(** [a] goes in front of [b] only when [b] may not stand before [a]: equal
    keys come out in the opposite order. *)
Definition before_strict (ascending : bool) (a b : value) : bool :=
  negb (before_stable ascending b a).

Lemma before_stable_true asc a b : before_stable asc a b = true -> in_order asc a b.
Proof. destruct asc; simpl; trivial. Qed.

Lemma before_stable_false asc a b : before_stable asc a b = false -> in_order asc b a.
Proof. destruct asc; simpl; apply value_leb_total. Qed.

Lemma before_strict_true asc a b : before_strict asc a b = true -> in_order asc a b.
Proof.
  unfold before_strict. intros H. apply negb_true_iff in H.
  now apply before_stable_false.
Qed.

Lemma before_strict_false asc a b : before_strict asc a b = false -> in_order asc b a.
Proof.
  unfold before_strict. intros H. apply negb_false_iff in H.
  now apply before_stable_true.
Qed.

(** A stable sort. *)
#[local] Instance stable : SortValues := {|
  argsort asc := insertion_sort (before_stable asc);
  argsort_perm asc := insertion_sort_perm (before_stable asc);
  argsort_sorted asc :=
    insertion_sort_sorted (before_stable asc) (in_order asc)
      (before_stable_true asc) (before_stable_false asc)
|}.

(** A sort that is not stable: rows with equal keys change places. *)
#[local] Instance unstable : SortValues := {|
  argsort asc := insertion_sort (before_strict asc);
  argsort_perm asc := insertion_sort_perm (before_strict asc);
  argsort_sorted asc :=
    insertion_sort_sorted (before_strict asc) (in_order asc)
      (before_strict_true asc) (before_strict_false asc)
|}.

End Sorters.

(** ** The functions with effects: loading, plotting, saving *)

Module IO.

(** One bar chart: its title, axis labels, and a bar per row (the course
    name and the value of the metric). *)
Record Panel : Type := {
  title : string;
  xlabel : string;
  ylabel : string;
  bars : list (string * value)
}.

Record Figure : Type := { ax1 : Panel; ax2 : Panel }.

(** What the program can change outside itself: the lines printed, the
    directories and files created, and the figures shown. *)
Record World : Type := {
  stdout : list string;
  directories : list string;
  files : list (string * PopularityFrame);
  shown : list Figure
}.

Definition print (line : string) (w : World) : World :=
  {| stdout := stdout w ++ [line];
     directories := directories w;
     files := files w;
     shown := shown w |}.

(** [Path(dir).mkdir(exist_ok=True, parents=True)] *)
Definition mkdir (dir : string) (w : World) : World :=
  {| stdout := stdout w;
     directories :=
       if existsb (String.eqb dir) (directories w)
       then directories w else directories w ++ [dir];
     files := files w;
     shown := shown w |}.

(** [df.to_csv(filepath)] *)
Definition to_csv (df : PopularityFrame) (filepath : string) (w : World) : World :=
  {| stdout := stdout w;
     directories := directories w;
     files := dict_set (files w) filepath df;
     shown := shown w |}.

(** [plt.show()] *)
Definition show (fig : Figure) (w : World) : World :=
  {| stdout := stdout w;
     directories := directories w;
     files := files w;
     shown := shown w ++ [fig] |}.

(** [Path(dir) / filename], rendered as a string. *)
Definition path_div (dir filename : string) : string :=
  if String.eqb dir "." then filename else dir ++ "/" ++ filename.

Definition preference_path : string :=
  "data/student_data/student_course_preferences.xlsx".

(** [load_student_preferences()]; [read_excel] is the pandas reader on the
    files at hand. *)
Definition load_student_preferences (read_excel : string -> result DataFrame)
  (w : World) : World * option DataFrame :=
  match read_excel preference_path with
  | Ok preferences_df => (w, Some preferences_df)
  | Raise e => (print ("Could not load student preferences: " ++ exn_str e) w, None)
  end.

(** [l[:n]], which is [df.head(n)] *)
Definition head {A : Type} (l : list A) (n : Z) : list A :=
  if 0 <=? n then firstn (Z.to_nat n) l
  else firstn (List.length l - Z.to_nat (- n)) l.

(** [df.tail(n)]: nothing for 0, else [l[-n:]] *)
Definition tail {A : Type} (l : list A) (n : Z) : list A :=
  if n =? 0 then []
  else if 0 <? n then skipn (List.length l - Z.to_nat n) l
  else skipn (Z.to_nat (- n)) l.

Definition is_lower (c : ascii) : bool :=
  let n := nat_of_ascii c in (97 <=? n)%nat && (n <=? 122)%nat.

Definition is_upper (c : ascii) : bool :=
  let n := nat_of_ascii c in (65 <=? n)%nat && (n <=? 90)%nat.

(** [s.replace('_', ' ')] *)
Fixpoint replace_underscore (s : string) : string :=
  match s with
  | EmptyString => EmptyString
  | String c rest =>
      String (if Ascii.eqb c "_" then " "%char else c) (replace_underscore rest)
  end.

(** [s.title()]: a letter that follows a letter is lowered, any other
    letter is raised. *)
Fixpoint title_from (after_letter : bool) (s : string) : string :=
  match s with
  | EmptyString => EmptyString
  | String c rest =>
      if is_lower c then
        String (if after_letter then c else ascii_of_nat (nat_of_ascii c - 32))
               (title_from true rest)
      else if is_upper c then
        String (if after_letter then ascii_of_nat (nat_of_ascii c + 32) else c)
               (title_from true rest)
      else String c (title_from false rest)
  end.

Definition str_title (s : string) : string := title_from false s.

(** [sns.barplot(x=metric, y='name', data=rows, ax=...)] with the title and
    labels set on the axes. *)
Definition barplot (which : string) (metric : string) (top_n : Z)
  (rows : list row) : result Panel :=
  keyed <- keyed_rows metric rows ;;
  Ok {| title := which ++ " " ++ str top_n ++ " Courses by " ++ metric;
        xlabel := str_title (replace_underscore metric);
        ylabel := "Course Name";
        bars := map (fun kr => (course_name (snd (snd kr)), fst kr)) keyed |}.

(** [plot_course_popularity(popularity_df, metric, top_n)] *)
Definition plot_course_popularity `{SortValues} (popularity_df : PopularityFrame)
  (metric : string) (top_n : Z) (w : World) : World * result unit :=
  if empty popularity_df then (print "No data to visualize" w, Ok tt)
  else
    match
      sorted_df <- sort_values popularity_df metric false ;;
      let top_courses := head (pf_rows sorted_df) top_n in
      let bottom_courses := tail (pf_rows sorted_df) top_n in
      p1 <- barplot "Top" metric top_n top_courses ;;
      p2 <- barplot "Bottom" metric top_n bottom_courses ;;
      Ok {| ax1 := p1; ax2 := p2 |}
    with
    | Ok fig => (show fig w, Ok tt)
    | Raise e => (w, Raise e)
    end.

(** The [year] argument: a string or an int. *)
Inductive year_arg : Type :=
| YearStr (s : string)
| YearInt (n : Z).

(** [f"_{year}" if year else ""] *)
Definition year_suffix (year : option year_arg) : string :=
  match year with
  | None => ""
  | Some (YearStr s) => if String.eqb s "" then "" else "_" ++ s
  | Some (YearInt n) => if n =? 0 then "" else "_" ++ str n
  end.

(** [save_popularity_data(popularity_df, year, output_dir)].  The value is
    what the call returns: the body ends with the [print], so a call that
    writes the file returns [None] like one that does not. *)
Definition save_popularity_data `{SortValues} (popularity_df : PopularityFrame)
  (year : option year_arg) (output_dir : option string) (w : World)
  : World * result (option string) :=
  if empty popularity_df then
    (print "Warning: Empty popularity DataFrame, nothing to save." w, Ok None)
  else
    match sort_values popularity_df "weighted_score" false with
    | Raise e => (w, Raise e)
    | Ok sorted_df =>
        let (w1, output_path) :=
          match output_dir with
          | Some dir => if truthy_str output_dir then (mkdir dir w, dir) else (w, ".")
          | None => (w, ".")
          end in
        let filename := "course_popularity_analysis" ++ year_suffix year ++ ".csv" in
        let filepath := path_div output_path filename in
        let w2 := to_csv sorted_df filepath w1 in
        (print ("Popularity data saved to " ++ filepath) w2, Ok None)
    end.

End IO.

Import IO.

(** ** What the claims speak of *)

Module Spec.

Definition is_digit (c : ascii) : bool :=
  let n := nat_of_ascii c in (48 <=? n)%nat && (n <=? 57)%nat.

Definition digit_value (c : ascii) : Z := Z.of_nat (nat_of_ascii c) - 48.

(** The rank written in the last character of a label, when that
    character is one of the digits 1 to 4. *)
Definition digit_rank (label : string) : option Z :=
  match last_char label with
  | Ok c =>
      if is_digit c && (1 <=? digit_value c) && (digit_value c <=? 4)
      then Some (digit_value c) else None
  | Raise _ => None
  end.

(** The rank of a column: it has one when its label starts with the
    preference prefix and ends in one of the digits 1 to 4. *)
Definition rank_of (label : string) : option Z :=
  if startswith pref_prefix label then digit_rank label else None.

Definition has_rank_k (k : Z) (label : string) : bool :=
  match rank_of label with
  | Some r => r =? k
  | None => false
  end.


(** The cells of the preference columns of rank [k], column after column. *)
Definition cells_of_rank (df : DataFrame) (k : Z) : list cell :=
  flat_map (fun col => if has_rank_k k (fst col) then snd col else []) df.

(** The cell holds a number equal to the identifier. *)
Definition equals_id (id : Z) (c : cell) : bool := cell_eq (inject_Z id) c.

(** The number of cells of rank [k] that equal the identifier [id]. *)
Definition mentions (df : DataFrame) (id k : Z) : Z :=
  Z.of_nat (List.length (filter (equals_id id) (cells_of_rank df k))).






(** Rows with the same score come in the same order in [out] as in [d]. *)
Definition ties_keep_order (d out : list row) : Prop :=
  forall w,
    filter (fun r => weighted_score (snd r) =? w) out =
    filter (fun r => weighted_score (snd r) =? w) d.

(** Non-increasing by weighted score. *)
Definition sorted_by_score (rows : list row) : Prop :=
  StronglySorted (fun a b => weighted_score (snd b) <= weighted_score (snd a)) rows.

End Spec.

Import Spec.

(** ** The counts and the dict as pure functions (used in the proofs) *)

(** The effect of one preference column on the counts of course [id]. *)
Definition step (df : DataFrame) (id : Z) (pc : PrefCounts) (col : string)
  : PrefCounts :=
  match digit_rank col, getitem df col with
  | Some r, Ok s => add_count pc r (count_eq s (inject_Z id))
  | _, _ => pc
  end.

Definition counts (df : DataFrame) (id : Z) : PrefCounts :=
  fold_left (step df id) (pref_columns df) pref_counts_init.

(** The name in the first catalogue row of course [id]. *)
Definition first_name (courses_df : CourseFrame) (id : Z) : string :=
  match lookup_name courses_df id with
  | Ok nm => nm
  | Raise _ => ""
  end.

(** The record written for course [id]. *)
Definition entry (df : DataFrame) (courses_df : CourseFrame) (id : Z)
  : PopularityRecord :=
  let pc := counts df id in
  {| course_id := id;
     course_name := first_name courses_df id;
     pref_1 := get_count pc 1;
     pref_2 := get_count pc 2;
     pref_3 := get_count pc 3;
     pref_4 := get_count pc 4;
     total_mentions := sum_values pc;
     weighted_score := weighted pc;
     avg_pref := avg_pref_of (weighted pc) (sum_values pc) |}.

Definition qualifies (df : DataFrame) (id : Z) : bool :=
  0 <? sum_values (counts df id).

Definition put (df : DataFrame) (courses_df : CourseFrame)
  (d : dict PopularityRecord) (id : Z) : dict PopularityRecord :=
  if qualifies df id then dict_set d (str id) (entry df courses_df id) else d.

Definition popularity (df : DataFrame) (courses_df : CourseFrame)
  : dict PopularityRecord :=
  fold_left (put df courses_df) (map CourseID courses_df) [].

(** ** Facts about the built-ins *)

Section Builtins.

Lemma int_of_plus rest : NilZero.int_of_string (String "+" rest) = None.
Proof. simpl. destruct (NilEmpty.uint_of_string rest); reflexivity. Qed.

Lemma to_int_nonnil z : Z.to_int z <> Pos Nil /\ Z.to_int z <> Neg Nil.
Proof.
  destruct z; simpl; split; try discriminate; intros H; injection H as H;
    now apply DecimalPos.Unsigned.to_uint_nonnil in H.
Qed.

(** [int(str(n)) == n] *)
Lemma int_str z : int (str z) = Ok z.
Proof.
  unfold int, str.
  destruct (to_int_nonnil z) as [H1 H2].
  pose proof (NilZero.isi _ H1 H2) as E.
  destruct (NilZero.string_of_int (Z.to_int z)) as [|a rest] eqn:Es.
  - discriminate E.
  - destruct (Ascii.eqb_spec a "+") as [->|Hne].
    + rewrite int_of_plus in E. discriminate.
    + assert (Hm : match String a rest with
                   | String "+"%char r => option_map Pos (NilZero.uint_of_string r)
                   | _ => NilZero.int_of_string (String a rest)
                   end = NilZero.int_of_string (String a rest)).
      { destruct a as [[] [] [] [] [] [] [] []]; try reflexivity. now elim Hne. }
      cbv zeta. rewrite Hm, E. now rewrite DecimalZ.of_to.
Qed.

Lemma str_inj a b : str a = str b -> a = b.
Proof.
  intros H. pose proof (int_str a) as Ha. rewrite H, int_str in Ha. congruence.
Qed.

(** [float(str(n))] is the number [n]. *)
Lemma float_str z : float (str z) = Ok (inject_Z z).
Proof. unfold float. now rewrite int_str. Qed.

(** [int] on one character: its value for a digit, ValueError otherwise. *)
Lemma int_char c :
  (is_digit c = true /\ int (String c EmptyString) = Ok (digit_value c)) \/
  (is_digit c = false /\ exists m, int (String c EmptyString) = Raise (ValueError m)).
Proof.
  destruct c as [[] [] [] [] [] [] [] []];
    first [ left; split; reflexivity | right; split; [reflexivity | eexists; reflexivity] ].
Qed.

Lemma has_rank_range r : has_rank r = (1 <=? r) && (r <=? 4).
Proof.
  unfold has_rank; simpl.
  destruct (Z.eqb_spec r 1), (Z.eqb_spec r 2), (Z.eqb_spec r 3), (Z.eqb_spec r 4);
    destruct (Z.leb_spec 1 r), (Z.leb_spec r 4); simpl; trivial; lia.
Qed.

Lemma last_char_some s : s <> EmptyString -> exists c, last_char s = Ok c.
Proof.
  induction s as [|a rest IH]; [congruence|]. intros _.
  destruct rest as [|b rest'].
  - now exists a.
  - destruct IH as [c Hc]; [discriminate|]. exists c. exact Hc.
Qed.

Lemma startswith_nonempty col : startswith pref_prefix col = true -> col <> EmptyString.
Proof. intros H ->. discriminate H. Qed.

Lemma getitem_in df col : In col (columns df) -> exists s, getitem df col = Ok s.
Proof.
  induction df as [|[label s] rest IH]; simpl; [tauto|].
  intros [->|Hin].
  - rewrite String.eqb_refl. now exists s.
  - destruct (String.eqb label col); [now exists s | now apply IH].
Qed.

Lemma getitem_nodup df label s :
  NoDup (columns df) -> In (label, s) df -> getitem df label = Ok s.
Proof.
  induction df as [|[l0 s0] rest IH]; simpl; [tauto|].
  intros Hnd [E|Hin].
  - injection E as -> ->. now rewrite String.eqb_refl.
  - inversion Hnd as [|? ? Hnotin Hnd']; subst.
    destruct (String.eqb_spec l0 label) as [->|Hne].
    + exfalso. apply Hnotin. change label with (fst (label, s)). now apply in_map.
    + now apply IH.
Qed.

End Builtins.

(** ** The tally of one course *)

Section Tally.

Variable df : DataFrame.
Variable id : Z.

(** One turn of the loop over the preference columns never raises: a label
    without a digit at its end is caught as ValueError, a digit outside 1-4
    fails the membership test. *)
Lemma tally_column_step pc col s :
  col <> EmptyString -> getitem df col = Ok s ->
  tally_column df (str id) pc col = Ok (step df id pc col).
Proof.
  intros Hne Hget. unfold tally_column, step, digit_rank. rewrite Hget.
  destruct (last_char_some col Hne) as [c Hc]. rewrite Hc. simpl.
  destruct (int_char c) as [[Hd Hint]|[Hd [m Hint]]]; rewrite Hint, Hd; simpl.
  - rewrite has_rank_range.
    destruct ((1 <=? digit_value c) && (digit_value c <=? 4)); simpl.
    + now rewrite float_str.
    + reflexivity.
  - reflexivity.
Qed.

Lemma for_each_tally cols pc :
  (forall col, In col cols -> col <> EmptyString /\ exists s, getitem df col = Ok s) ->
  for_each (tally_column df (str id)) cols pc = Ok (fold_left (step df id) cols pc).
Proof.
  revert pc. induction cols as [|col rest IH]; intros pc Hall; simpl; [reflexivity|].
  destruct (Hall col (or_introl eq_refl)) as [Hne [s Hs]].
  rewrite (tally_column_step pc col s Hne Hs). simpl.
  apply IH. intros c Hc. apply Hall. now right.
Qed.

Lemma pref_columns_ok col :
  In col (pref_columns df) -> col <> EmptyString /\ exists s, getitem df col = Ok s.
Proof.
  unfold pref_columns. intros H. apply filter_In in H as [Hin Hsw]. split.
  - now apply startswith_nonempty.
  - now apply getitem_in.
Qed.

(** The loop over the preference columns ends with [counts]. *)
Lemma tally_counts : tally df (str id) = Ok (counts df id).
Proof. unfold tally, counts. apply for_each_tally, pref_columns_ok. Qed.

End Tally.

(** ** The counts are the numbers of matching cells *)

Section Counts.

Lemma get_add_count pc r n k :
  has_rank r = true -> has_rank k = true ->
  get_count (add_count pc r n) k = get_count pc k + (if r =? k then n else 0).
Proof.
  rewrite !has_rank_range. intros Hr Hk.
  assert (r = 1 \/ r = 2 \/ r = 3 \/ r = 4) as Hr' by lia.
  assert (k = 1 \/ k = 2 \/ k = 3 \/ k = 4) as Hk' by lia.
  destruct pc; destruct Hr' as [-> | [-> | [-> | ->]]], Hk' as [-> | [-> | [-> | ->]]];
    cbn; lia.
Qed.

Lemma digit_rank_has_rank label r : digit_rank label = Some r -> has_rank r = true.
Proof.
  unfold digit_rank. destruct (last_char label) as [c|]; [|discriminate].
  destruct (is_digit c && (1 <=? digit_value c) && (digit_value c <=? 4)) eqn:E;
    [|discriminate].
  intros H. injection H as <-. rewrite has_rank_range.
  apply andb_true_iff in E as [E1 E3]. apply andb_true_iff in E1 as [_ E2].
  now rewrite E2, E3.
Qed.

(** The effect of a labelled column, taken with its own cells. *)
Definition step_col (id : Z) (pc : PrefCounts) (col : string * Series) : PrefCounts :=
  match rank_of (fst col) with
  | Some r => add_count pc r (count_eq (snd col) (inject_Z id))
  | None => pc
  end.

Lemma fold_step_cols df id l pc :
  NoDup (columns df) -> incl l df ->
  fold_left (step df id) (filter (startswith pref_prefix) (map fst l)) pc =
  fold_left (step_col id) l pc.
Proof.
  intros Hnd. revert pc. induction l as [|[label s] rest IH]; intros pc Hincl; simpl;
    [reflexivity|].
  assert (Hrest : incl rest df) by (intros x Hx; apply Hincl; now right).
  unfold step_col at 2, rank_of. simpl.
  destruct (startswith pref_prefix label) eqn:Hsw; simpl.
  - unfold step at 2.
    rewrite (getitem_nodup df label s Hnd (Hincl _ (or_introl eq_refl))).
    destruct (digit_rank label); now apply IH.
  - now apply IH.
Qed.

Lemma mentions_cons label s df id k :
  mentions ((label, s) :: df) id k =
  (if has_rank_k k label then count_eq s (inject_Z id) else 0) + mentions df id k.
Proof.
  unfold mentions, cells_of_rank, count_eq, equals_id. simpl.
  destruct (has_rank_k k label).
  - now rewrite filter_app, length_app, Nat2Z.inj_add.
  - reflexivity.
Qed.

Lemma fold_step_col_count id l pc k :
  has_rank k = true ->
  get_count (fold_left (step_col id) l pc) k = get_count pc k + mentions l id k.
Proof.
  intros Hk. revert pc. induction l as [|[label s] rest IH]; intros pc; simpl.
  - unfold mentions. simpl. lia.
  - rewrite IH, mentions_cons. unfold step_col, has_rank_k. simpl.
    destruct (rank_of label) as [r|] eqn:Er.
    + rewrite get_add_count; trivial; [lia|].
      unfold rank_of in Er. destruct (startswith pref_prefix label); [|discriminate].
      now apply digit_rank_has_rank in Er.
    + lia.
Qed.

(** With distinct labels, the count kept under rank [k] is the number of
    cells of rank [k] equal to the identifier. *)
Lemma counts_mentions df id k :
  NoDup (columns df) -> has_rank k = true ->
  get_count (counts df id) k = mentions df id k.
Proof.
  intros Hnd Hk. unfold counts, pref_columns, columns.
  rewrite (fold_step_cols df id df pref_counts_init Hnd (incl_refl df)).
  rewrite fold_step_col_count by trivial.
  unfold get_count; simpl. repeat destruct (_ =? _); lia.
Qed.



End Counts.

(** ** The dict of records *)

Section Dict.

Context {V : Type}.

Lemma dict_set_in (d : dict V) k v : In (k, v) (dict_set d k v).
Proof.
  induction d as [|[k' v'] rest IH]; simpl; [now left|].
  destruct (String.eqb k' k); [now left | now right].
Qed.

Lemma dict_set_inv (d : dict V) k v k0 v0 :
  In (k0, v0) (dict_set d k v) -> (k0, v0) = (k, v) \/ In (k0, v0) d.
Proof.
  induction d as [|[k' v'] rest IH]; simpl.
  - intros [E|[]]. now left.
  - destruct (String.eqb k' k); simpl.
    + intros [E|H]; [now left | right; now right].
    + intros [E|H]; [right; now left|]. destruct (IH H); [now left | right; now right].
Qed.

Lemma dict_set_keeps (d : dict V) k v k0 v0 :
  In (k0, v0) d -> (k0 = k -> v0 = v) -> In (k0, v0) (dict_set d k v).
Proof.
  induction d as [|[k' v'] rest IH]; simpl; [tauto|].
  intros [E|H] Hsame.
  - injection E as -> ->. destruct (String.eqb_spec k0 k) as [->|Hne].
    + left. now rewrite Hsame.
    + now left.
  - destruct (String.eqb k' k); right; [exact H | now apply IH].
Qed.

Lemma dict_set_keys_in (d : dict V) k v k0 :
  In k0 (keys (dict_set d k v)) -> k0 = k \/ In k0 (keys d).
Proof.
  unfold keys. intros H. apply in_map_iff in H as [[k1 v1] [E H]]. simpl in E. subst k1.
  apply dict_set_inv in H as [H|H].
  - left. congruence.
  - right. change k0 with (fst (k0, v1)). now apply in_map.
Qed.

(** Assigning to a key never makes a second entry for it. *)
Lemma dict_set_nodup (d : dict V) k v : NoDup (keys d) -> NoDup (keys (dict_set d k v)).
Proof.
  induction d as [|[k' v'] rest IH]; simpl; intros Hnd.
  - constructor; [tauto | constructor].
  - inversion Hnd as [|? ? Hnotin Hnd']; subst.
    destruct (String.eqb_spec k' k) as [->|Hne]; simpl.
    + now constructor.
    + constructor; [|now apply IH].
      intros Hin. apply dict_set_keys_in in Hin as [E|Hin]; [congruence | tauto].
Qed.

End Dict.

Section Build.

Variable df : DataFrame.
Variable courses_df : CourseFrame.

Lemma lookup_name_in id :
  In id (map CourseID courses_df) ->
  lookup_name courses_df id = Ok (first_name courses_df id).
Proof.
  intros Hin. unfold first_name, lookup_name.
  apply in_map_iff in Hin as [r [E Hr]].
  assert (Hf : In r (filter (fun r => CourseID r =? id) courses_df)).
  { apply filter_In. split; [exact Hr | now apply Z.eqb_eq]. }
  destruct (filter (fun r => CourseID r =? id) courses_df); [destruct Hf | reflexivity].
Qed.

(** One turn of the loop over the courses: nothing is raised, and the dict
    gets the course's record when, and only when, it was mentioned. *)
Lemma process_course_put d id :
  In id (map CourseID courses_df) ->
  process_course df courses_df d (str id) = Ok (put df courses_df d id).
Proof.
  intros Hin. unfold process_course, put, qualifies.
  rewrite tally_counts. simpl.
  destruct (0 <? sum_values (counts df id)); [|reflexivity].
  rewrite int_str. simpl. rewrite (lookup_name_in id Hin). reflexivity.
Qed.

Lemma for_each_put ids d :
  incl ids (map CourseID courses_df) ->
  for_each (process_course df courses_df) (map str ids) d =
  Ok (fold_left (put df courses_df) ids d).
Proof.
  revert d. induction ids as [|id rest IH]; intros d Hincl; simpl; [reflexivity|].
  rewrite process_course_put by (apply Hincl; now left). simpl.
  apply IH. intros x Hx. apply Hincl. now right.
Qed.

(** The loop over the courses always ends, with the dict [popularity]. *)
Lemma build_popularity_eq :
  build_popularity df courses_df = Ok (popularity df courses_df).
Proof.
  unfold build_popularity, popularity, course_ids.
  rewrite <- (for_each_put (map CourseID courses_df) [] (incl_refl _)).
  now rewrite map_map.
Qed.

(** What the dict holds, whatever the courses gone through so far. *)
Definition well_formed (d : dict PopularityRecord) : Prop :=
  NoDup (keys d) /\
  forall k r, In (k, r) d ->
    exists id, In id (map CourseID courses_df) /\ qualifies df id = true /\
               k = str id /\ r = entry df courses_df id.

Lemma put_well_formed d id :
  In id (map CourseID courses_df) -> well_formed d ->
  well_formed (put df courses_df d id).
Proof.
  intros Hin [Hnd Hall]. unfold put. destruct (qualifies df id) eqn:Hq; [|now split].
  split; [now apply dict_set_nodup|].
  intros k r Hkr. apply dict_set_inv in Hkr as [E|Hkr].
  - injection E as -> ->. now exists id.
  - now apply Hall.
Qed.

Lemma fold_put_well_formed ids d :
  incl ids (map CourseID courses_df) -> well_formed d ->
  well_formed (fold_left (put df courses_df) ids d).
Proof.
  revert d. induction ids as [|id rest IH]; intros d Hincl Hwf; simpl; [exact Hwf|].
  apply IH; [intros x Hx; apply Hincl; now right|].
  apply put_well_formed; [apply Hincl; now left | exact Hwf].
Qed.

Lemma put_keeps d id k r :
  well_formed d -> In (k, r) d -> In (k, r) (put df courses_df d id).
Proof.
  intros [_ Hall] Hkr. unfold put. destruct (qualifies df id); [|exact Hkr].
  apply dict_set_keeps; [exact Hkr|].
  intros ->. destruct (Hall _ _ Hkr) as [id' [_ [_ [E ->]]]].
  apply str_inj in E. now subst.
Qed.

Lemma fold_put_keeps ids d k r :
  incl ids (map CourseID courses_df) -> well_formed d ->
  In (k, r) d -> In (k, r) (fold_left (put df courses_df) ids d).
Proof.
  revert d. induction ids as [|id rest IH]; intros d Hincl Hwf Hkr; simpl; [exact Hkr|].
  assert (Hid : In id (map CourseID courses_df)) by (apply Hincl; now left).
  apply IH; [intros x Hx; apply Hincl; now right | now apply put_well_formed |].
  now apply put_keeps.
Qed.

Lemma fold_put_has ids d id :
  incl ids (map CourseID courses_df) -> well_formed d ->
  In id ids -> qualifies df id = true ->
  In (str id, entry df courses_df id) (fold_left (put df courses_df) ids d).
Proof.
  revert d. induction ids as [|id0 rest IH]; intros d Hincl Hwf Hin Hq; simpl; [destruct Hin|].
  assert (Hid0 : In id0 (map CourseID courses_df)) by (apply Hincl; now left).
  assert (Hrest : incl rest (map CourseID courses_df))
    by (intros x Hx; apply Hincl; now right).
  destruct Hin as [->|Hin].
  - apply fold_put_keeps; trivial; [now apply put_well_formed|].
    unfold put. rewrite Hq. apply dict_set_in.
  - apply IH; trivial. now apply put_well_formed.
Qed.

Lemma popularity_well_formed : well_formed (popularity df courses_df).
Proof.
  apply fold_put_well_formed; [apply incl_refl|].
  split; [constructor | intros k r []].
Qed.



End Build.

(** ** The table returned *)

Section Ranking.

Context `{SortValues}.

(** The rows paired with their weighted score. *)
Definition by_score (d : list row) : list (value * row) :=
  map (fun r => (VInt (weighted_score (snd r)), r)) d.

Lemma keyed_rows_score d : keyed_rows "weighted_score" d = Ok (by_score d).
Proof.
  induction d as [|r rest IH]; simpl; [reflexivity|]. now rewrite IH.
Qed.

Lemma sorted_transfer {A B : Type} (R : A -> A -> Prop) (R' : B -> B -> Prop)
  (P : A -> Prop) (f : A -> B) l :
  (forall a b, P a -> P b -> R a b -> R' (f a) (f b)) ->
  Sorted R l -> Forall P l -> Sorted R' (map f l).
Proof.
  intros Himp. induction 1 as [|a rest Hs IH Hhd]; intros Hall; simpl; [constructor|].
  inversion Hall as [|? ? Pa Prest]; subst. constructor; [now apply IH|].
  destruct Hhd as [|b rest' Hab]; simpl; constructor.
  inversion Prest; subst. now apply Himp.
Qed.

(** [sort_values('weighted_score', ascending=False)] on the frame made
    from the dict: the rows rearranged, scores non-increasing. *)
Lemma sort_by_score d r0 :
  exists rows,
    sort_values (from_dict_index (r0 :: d)) "weighted_score" false =
      Ok {| pf_columns := schema; pf_rows := rows |} /\
    Permutation (r0 :: d) rows /\ sorted_by_score rows.
Proof.
  exists (map snd (argsort false (by_score (r0 :: d)))).
  assert (Hperm : Permutation (by_score (r0 :: d)) (argsort false (by_score (r0 :: d))))
    by apply argsort_perm.
  split; [|split].
  - unfold sort_values. destruct r0 as [k r].
    change (pf_columns (from_dict_index ((k, r) :: d))) with schema.
    change (existsb (String.eqb "weighted_score") schema) with true. cbv iota.
    change (pf_rows (from_dict_index ((k, r) :: d))) with ((k, r) :: d).
    now rewrite keyed_rows_score.
  - apply (Permutation_map snd) in Hperm. unfold by_score in Hperm at 1.
    rewrite map_map in Hperm. simpl in Hperm. now rewrite map_id in Hperm.
  - apply Sorted_StronglySorted; [intros a b c Hab Hbc; lia|].
    assert (Hall : Forall (fun x => fst x = VInt (weighted_score (snd (snd x))))
                     (argsort false (by_score (r0 :: d)))).
    { apply Forall_forall. intros x Hx.
      apply (Permutation_in _ (Permutation_sym Hperm)) in Hx.
      unfold by_score in Hx. apply in_map_iff in Hx as [r [<- _]]. reflexivity. }
    refine (sorted_transfer _ _ _ snd _ _ (argsort_sorted false _) Hall).
    intros [ka ra] [kb rb] Ha Hb Hab. simpl in Ha, Hb, Hab. subst ka kb.
    now apply Z.leb_le.
Qed.

Variable df : DataFrame.
Variable courses_df : CourseFrame.

(** The analysis never raises on a frame; it returns the records of the
    dict, rearranged so that the scores do not increase, under the nine
    columns. *)
Lemma analyze_returns :
  exists out,
    analyze_course_popularity (Some df) courses_df = Ok out /\
    pf_columns out = schema /\
    Permutation (popularity df courses_df) (pf_rows out) /\
    sorted_by_score (pf_rows out).
Proof.
  unfold analyze_course_popularity. rewrite build_popularity_eq. simpl.
  destruct (popularity df courses_df) as [|r0 d].
  - exists (DataFrame_columns schema). repeat split; constructor.
  - destruct (sort_by_score d r0) as [rows [E [Hp Hs]]].
    exists {| pf_columns := schema; pf_rows := rows |}. now repeat split.
Qed.


End Ranking.

(** ** Columns that are not counted, and blank cells *)


Section Skipped.







Lemma fold_left_ext_in {A B : Type} (f g : A -> B -> A) l a :
  (forall a b, In b l -> f a b = g a b) -> fold_left f l a = fold_left g l a.
Proof.
  revert a. induction l as [|b rest IH]; intros a Hfg; simpl; [reflexivity|].
  rewrite Hfg by now left. apply IH. intros a' b' Hb'. apply Hfg. now right.
Qed.










(** The analysis sees the preference frame through the counts only. *)
Lemma analyze_counts `{SortValues} df df' courses_df :
  (forall id, counts df id = counts df' id) ->
  analyze_course_popularity (Some df) courses_df =
  analyze_course_popularity (Some df') courses_df.
Proof.
  intros Hc. unfold analyze_course_popularity. rewrite !build_popularity_eq.
  replace (popularity df' courses_df) with (popularity df courses_df); [reflexivity|].
  unfold popularity. apply fold_left_ext_in. intros d id _.
  unfold put, qualifies, entry. now rewrite Hc.
Qed.

End Skipped.

(** ** A small survey, used to run the functions *)

Module Example.

Definition courses : CourseFrame :=
  [ {| CourseID := 1; name := "Algebra" |};
    {| CourseID := 2; name := "Biology" |};
    {| CourseID := 3; name := "Chemistry" |} ].

(** Three students; one column without a rank, one with rank 7, and one
    that is no preference column. *)
Definition prefs : DataFrame :=
  [ ("student", [Text "ann"; Text "bob"; Text "cy"]);
    ("kurz1", [Num 1; Num 1; Num 2]);
    ("kurz2", [Num 2; Num 1; NaN]);
    ("kurzX", [Num 3; Num 3; Num 3]);
    ("kurz7", [Num 3; NaN; Text ""]) ].

(** Two courses, each chosen once as first preference. *)
Definition tied_prefs : DataFrame := [ ("kurz1", [Num 1; Num 2]) ].


Definition algebra : PopularityRecord :=
  {| course_id := 1; course_name := "Algebra";
     pref_1 := 1; pref_2 := 0; pref_3 := 0; pref_4 := 0;
     total_mentions := 1; weighted_score := 4; avg_pref := avg_pref_of 4 1 |}.

Definition biology : PopularityRecord :=
  {| course_id := 2; course_name := "Biology";
     pref_1 := 1; pref_2 := 0; pref_3 := 0; pref_4 := 0;
     total_mentions := 1; weighted_score := 4; avg_pref := avg_pref_of 4 1 |}.

Definition table : PopularityFrame :=
  {| pf_columns := schema; pf_rows := [("1", algebra); ("2", biology)] |}.

Definition world0 : World :=
  {| stdout := []; directories := []; files := []; shown := [] |}.

(** A reader that finds no file. *)
Definition no_file (path : string) : result DataFrame :=
  Raise (OSError ("No such file or directory: '" ++ path ++ "'")).

End Example.

Ltac nodup_labels := repeat constructor; simpl; intuition discriminate.

(** ** The properties *)







(** C4, as amended.  When the reader fails, [load_student_preferences]
    prints a line and returns [None]; the analysis of [None] raises
    AttributeError, whatever the catalogue: no table is returned. *)
Theorem absent_preferences_raise `{SortValues}
  (read_excel : string -> result DataFrame) (w : World)
  (courses_df : CourseFrame) (e : exn) :
  read_excel preference_path = Raise e ->
  load_student_preferences read_excel w =
    (print ("Could not load student preferences: " ++ exn_str e) w, None) /\
  analyze_course_popularity (snd (load_student_preferences read_excel w)) courses_df =
    Raise (AttributeError "'NoneType' object has no attribute 'columns'").
Proof.
  intros Hread. unfold load_student_preferences. rewrite Hread. split; reflexivity.
Qed.

Lemma absent_preferences_raise_witness :
  load_student_preferences Example.no_file Example.world0 =
    (print ("Could not load student preferences: "
            ++ exn_str (OSError ("No such file or directory: '" ++ preference_path ++ "'")))
       Example.world0, None) /\
  analyze_course_popularity (H := Sorters.stable)
    (snd (load_student_preferences Example.no_file Example.world0)) Example.courses =
    Raise (AttributeError "'NoneType' object has no attribute 'columns'").
Proof.
  apply (@absent_preferences_raise Sorters.stable Example.no_file Example.world0
           Example.courses
           (OSError ("No such file or directory: '" ++ preference_path ++ "'"))).
  reflexivity.
Defined.

(** C4, as stated, fails: after a failed load the analysis returns no
    table at all, empty or not. *)
Lemma absent_preferences_no_table :
  exists (S : SortValues) read_excel w courses_df e,
    read_excel preference_path = Raise e /\
    snd (load_student_preferences read_excel w) = None /\
    forall out,
      analyze_course_popularity (snd (load_student_preferences read_excel w)) courses_df
        <> Ok out.
Proof.
  exists Sorters.stable, Example.no_file, Example.world0, Example.courses.
  eexists. split; [reflexivity|]. split; [reflexivity|].
  intros out. vm_compute. discriminate.
Qed.

(** C5 (the code falls short of it).  Saving the two-record table for the
    year 2024 under 'out' creates the directory, writes the sorted table to
    out/course_popularity_analysis_2024.csv and prints the path, yet the
    call returns [None], not the path. *)
Theorem save_returns_none :
  exists w' sorted_df,
    save_popularity_data (H := Sorters.stable) Example.table (Some (YearInt 2024))
      (Some "out") Example.world0 = (w', Ok None) /\
    sort_values (H := Sorters.stable) Example.table "weighted_score" false = Ok sorted_df /\
    directories w' = ["out"] /\
    files w' = [("out/course_popularity_analysis_2024.csv", sorted_df)] /\
    stdout w' = ["Popularity data saved to out/course_popularity_analysis_2024.csv"].
Proof.
  eexists. eexists.
  split; [vm_compute; reflexivity|].
  split; [vm_compute; reflexivity|].
  repeat split.
Qed.

(** Whatever the arguments, [save_popularity_data] never returns a path. *)
Lemma save_never_returns_path `{SortValues} (f : PopularityFrame)
  (year : option year_arg) (output_dir : option string) (w : World) :
  snd (save_popularity_data f year output_dir w) = Ok None \/
  exists e, snd (save_popularity_data f year output_dir w) = Raise e.
Proof.
  unfold save_popularity_data. destruct (empty f); [now left|].
  destruct (sort_values f "weighted_score" false) as [sorted_df|e].
  - left. destruct output_dir as [dir|]; [destruct (truthy_str (Some dir))|]; reflexivity.
  - right. now exists e.
Qed.

(** An empty table is not saved: a warning is printed, nothing is written
    and [None] is returned. *)
Lemma save_empty `{SortValues} (f : PopularityFrame)
  (year : option year_arg) (output_dir : option string) (w : World) :
  pf_rows f = [] ->
  save_popularity_data f year output_dir w =
    (print "Warning: Empty popularity DataFrame, nothing to save." w, Ok None).
Proof.
  intros Hrows. unfold save_popularity_data, empty. rewrite Hrows.
  now destruct (pf_columns f).
Qed.






Lemma dict_get_unknown (r : PopularityRecord) (metric : string) :
  ~ In metric schema -> dict_get (record_items r) metric = None.
Proof.
  intros Hnot. unfold record_items. cbn [dict_get].
  repeat match goal with
  | |- context [String.eqb ?a metric] =>
      destruct (String.eqb_spec a metric) as [E|_];
      [exfalso; apply Hnot; rewrite <- E; unfold schema; cbn [In]; tauto|]
  end.
  reflexivity.
Qed.

(** C9. On an empty table the plot prints 'No data to visualize', shows
    nothing and raises nothing, whatever the metric.  On a table with
    rows, a metric that is none of the nine columns makes the call raise the
    lookup error for that name (KeyError), and nothing is printed or shown. *)
Theorem plot_unknown_metric `{SortValues} (f : PopularityFrame)
  (metric : string) (top_n : Z) (w : World) :
  (empty f = true ->
     plot_course_popularity f metric top_n w = (print "No data to visualize" w, Ok tt)) /\
  (empty f = false -> ~ In metric schema ->
     plot_course_popularity f metric top_n w = (w, Raise (KeyError metric))).
Proof.
  unfold plot_course_popularity. split.
  - now intros ->.
  - intros Hne Hnot. rewrite Hne. unfold sort_values.
    destruct (existsb (String.eqb metric) (pf_columns f)); [|reflexivity].
    unfold empty in Hne. destruct (pf_columns f); [discriminate|].
    destruct (pf_rows f) as [|r rest]; [discriminate|].
    simpl. unfold row_key. now rewrite dict_get_unknown.
Qed.


(** ** With a stable routine, ties keep the order of the dict *)

Section StableTies.

Variable w : Z.

(** The key is the score [w]. *)
Definition key_is (x : value * row) : bool :=
  match fst x with
  | VInt k => k =? w
  | _ => false
  end.

Lemma key_is_before x y :
  key_is x = true -> key_is y = true ->
  Sorters.before_stable false (fst x) (fst y) = true.
Proof.
  unfold key_is. destruct (fst x) as [a| |]; try discriminate.
  destruct (fst y) as [b| |]; try discriminate.
  intros Ha Hb. apply Z.eqb_eq in Ha, Hb. subst. simpl. apply Z.leb_refl.
Qed.

Lemma filter_insert_stable x l :
  filter key_is (Sorters.insert (Sorters.before_stable false) x l) =
  filter key_is (x :: l).
Proof.
  induction l as [|y rest IH]; [reflexivity|].
  cbn [Sorters.insert].
  destruct (Sorters.before_stable false (fst x) (fst y)) eqn:Eb; [reflexivity|].
  cbn [filter] in *. rewrite IH.
  destruct (key_is x) eqn:Ex, (key_is y) eqn:Ey; trivial.
  rewrite (key_is_before x y Ex Ey) in Eb. discriminate.
Qed.

Lemma filter_insertion_sort_stable l :
  filter key_is (Sorters.insertion_sort (Sorters.before_stable false) l) =
  filter key_is l.
Proof.
  induction l as [|x rest IH]; [reflexivity|].
  cbn [Sorters.insertion_sort fold_right].
  change (fold_right (Sorters.insert (Sorters.before_stable false)) [] rest)
    with (Sorters.insertion_sort (Sorters.before_stable false) rest).
  rewrite filter_insert_stable. cbn [filter]. now rewrite IH.
Qed.

Lemma filter_keyed l :
  Forall (fun x => fst x = VInt (weighted_score (snd (snd x)))) l ->
  map snd (filter key_is l) =
  filter (fun r : row => weighted_score (snd r) =? w) (map snd l).
Proof.
  induction 1 as [|[k r] rest Hk _ IH]; [reflexivity|].
  simpl in Hk. subst k. cbn [filter map]. unfold key_is at 1. cbn [fst snd].
  destruct (weighted_score (snd r) =? w); cbn [map]; now rewrite IH.
Qed.

End StableTies.

(** With the stable routine the claim C2 holds as it is stated: the rows
    are sorted and rows of equal score stand as in the dict. *)
Lemma stable_ties_keep_order (df : DataFrame) (courses_df : CourseFrame) :
  exists out,
    analyze_course_popularity (H := Sorters.stable) (Some df) courses_df = Ok out /\
    sorted_by_score (pf_rows out) /\
    ties_keep_order (popularity df courses_df) (pf_rows out).
Proof.
  destruct (analyze_returns (H := Sorters.stable) df courses_df) as [out [E [_ [_ Hs]]]].
  exists out. split; [exact E|]. split; [exact Hs|].
  unfold analyze_course_popularity in E. rewrite build_popularity_eq in E. simpl in E.
  destruct (popularity df courses_df) as [|r0 d].
  - injection E as <-. intros w. reflexivity.
  - destruct r0 as [k r]. set (dd := (k, r) :: d) in *. unfold sort_values in E.
    change (pf_columns (from_dict_index dd)) with schema in E.
    change (existsb (String.eqb "weighted_score") schema) with true in E. cbv iota in E.
    change (pf_rows (from_dict_index dd)) with dd in E.
    rewrite keyed_rows_score in E. cbn [bind] in E. injection E as <-.
    intros w. cbn [pf_rows].
    change (argsort false (by_score dd))
      with (Sorters.insertion_sort (Sorters.before_stable false) (by_score dd)).
    assert (Hall : forall l, Permutation (by_score dd) l ->
              Forall (fun x => fst x = VInt (weighted_score (snd (snd x)))) l).
    { intros l Hp. apply Forall_forall. intros x Hx.
      apply (Permutation_in _ (Permutation_sym Hp)) in Hx.
      unfold by_score in Hx. apply in_map_iff in Hx as [r' [<- _]]. reflexivity. }
    transitivity (map snd (filter (key_is w)
                   (Sorters.insertion_sort (Sorters.before_stable false) (by_score dd)))).
    { symmetry. exact (filter_keyed w _ (Hall _ (Sorters.insertion_sort_perm _ _))). }
    rewrite filter_insertion_sort_stable.
    transitivity (filter (fun r : row => weighted_score (snd r) =? w)
                    (map snd (by_score dd))).
    { exact (filter_keyed w _ (Hall _ (Permutation_refl _))). }
    f_equal.
    unfold by_score. rewrite map_map. cbn [snd]. now rewrite map_id.
Qed.

(** ** The functions run on the small survey *)

(** Algebra is chosen twice first and once second, Biology once first and
    once second; the columns 'kurzX' and 'kurz7' and the blank cells count
    for nothing, so Chemistry, named only there, has no record. *)
Example survey_ranking :
  analyze_course_popularity (H := Sorters.stable) (Some Example.prefs) Example.courses =
  Ok {| pf_columns := schema;
        pf_rows :=
          [ ("1", {| course_id := 1; course_name := "Algebra";
                     pref_1 := 2; pref_2 := 1; pref_3 := 0; pref_4 := 0;
                     total_mentions := 3; weighted_score := 11;
                     avg_pref := (11 # 3)%Q |});
            ("2", {| course_id := 2; course_name := "Biology";
                     pref_1 := 1; pref_2 := 1; pref_3 := 0; pref_4 := 0;
                     total_mentions := 2; weighted_score := 7;
                     avg_pref := (7 # 2)%Q |}) ] |}.
Proof. vm_compute. reflexivity. Qed.

(** A catalogue that lists course 1 twice still yields one record for it,
    under the name of its first row. *)
Example repeated_course :
  analyze_course_popularity (H := Sorters.stable) (Some Example.tied_prefs)
    [ {| CourseID := 1; name := "Algebra" |}; {| CourseID := 1; name := "Analysis" |} ] =
  Ok {| pf_columns := schema; pf_rows := [("1", Example.algebra)] |}.
Proof. vm_compute. reflexivity. Qed.

(** Plotting by a column that is not there raises; plotting an empty table
    only prints. *)
Example plot_runs :
  plot_course_popularity (H := Sorters.stable) Example.table "popularity" 10 Example.world0
    = (Example.world0, Raise (KeyError "popularity")) /\
  plot_course_popularity (H := Sorters.stable) (DataFrame_columns schema) "popularity" 10
    Example.world0 = (print "No data to visualize" Example.world0, Ok tt) /\
  exists fig,
    plot_course_popularity (H := Sorters.stable) Example.table "total_mentions" 1
      Example.world0 = (show fig Example.world0, Ok tt) /\
    title (ax1 fig) = "Top 1 Courses by total_mentions" /\
    xlabel (ax1 fig) = "Total Mentions" /\
    bars (ax1 fig) = [("Algebra", VInt 1)] /\
    bars (ax2 fig) = [("Biology", VInt 1)].
Proof.
  split; [vm_compute; reflexivity|]. split; [vm_compute; reflexivity|].
  eexists. split; [vm_compute; reflexivity|]. repeat split.
Qed.

(** Saving without a year and without a directory writes beside the
    program; saving an empty table writes nothing. *)
Example save_runs :
  (exists w',
     save_popularity_data (H := Sorters.stable) Example.table None None Example.world0
       = (w', Ok None) /\
     keys (files w') = ["course_popularity_analysis.csv"] /\
     directories w' = []) /\
  save_popularity_data (H := Sorters.stable) (DataFrame_columns schema)
    (Some (YearStr "2024")) (Some "out") Example.world0 =
    (print "Warning: Empty popularity DataFrame, nothing to save." Example.world0, Ok None).
Proof.
  split; [|vm_compute; reflexivity].
  eexists. split; [vm_compute; reflexivity|]. split; reflexivity.
Qed.

(** * Further properties of the analysis *)

Section MoreAnalysis.





End MoreAnalysis.





Section Invariance.

Lemma counts_fields pc pc' :
  n1 pc = n1 pc' -> n2 pc = n2 pc' -> n3 pc = n3 pc' -> n4 pc = n4 pc' -> pc = pc'.
Proof. destruct pc, pc'; simpl; intros; subst; reflexivity. Qed.

(** With distinct labels on both sides, the counts are decided by the
    numbers of matching cells per rank. *)
Lemma counts_by_mentions df df' id :
  NoDup (columns df) -> NoDup (columns df') ->
  (forall k, mentions df id k = mentions df' id k) ->
  counts df id = counts df' id.
Proof.
  intros Hnd Hnd' Hm.
  apply counts_fields.
  - change (get_count (counts df id) 1 = get_count (counts df' id) 1).
    rewrite !counts_mentions by trivial. apply Hm.
  - change (get_count (counts df id) 2 = get_count (counts df' id) 2).
    rewrite !counts_mentions by trivial. apply Hm.
  - change (get_count (counts df id) 3 = get_count (counts df' id) 3).
    rewrite !counts_mentions by trivial. apply Hm.
  - change (get_count (counts df id) 4 = get_count (counts df' id) 4).
    rewrite !counts_mentions by trivial. apply Hm.
Qed.

Lemma filter_length_perm {A : Type} (f : A -> bool) l l' :
  Permutation l l' -> List.length (filter f l) = List.length (filter f l').
Proof.
  induction 1 as [|x l l' _ IH|x y l|l l' l'' _ IH1 _ IH2]; simpl; trivial.
  - destruct (f x); simpl; now rewrite IH.
  - destruct (f x), (f y); reflexivity.
  - now rewrite IH1.
Qed.

Lemma count_eq_perm s s' x : Permutation s s' -> count_eq s x = count_eq s' x.
Proof. intros Hp. unfold count_eq. now rewrite (filter_length_perm _ _ _ Hp). Qed.

Lemma mentions_perm df df' id k :
  Permutation df df' -> mentions df id k = mentions df' id k.
Proof.
  intros Hp. unfold mentions. f_equal. apply filter_length_perm.
  unfold cells_of_rank. now apply Permutation_flat_map.
Qed.

(** The same labels, and under each label the same cells in some order. *)
Definition shuffled (df df' : DataFrame) : Prop :=
  Forall2 (fun col col' => fst col = fst col' /\ Permutation (snd col) (snd col')) df df'.

Lemma shuffled_columns df df' : shuffled df df' -> columns df = columns df'.
Proof.
  induction 1 as [|[l s] [l' s'] df df' [Hl _] _ IH]; simpl; [reflexivity|].
  simpl in Hl. now rewrite Hl, IH.
Qed.

Lemma shuffled_getitem df df' col :
  shuffled df df' ->
  match getitem df col, getitem df' col with
  | Ok s, Ok s' => Permutation s s'
  | Raise _, Raise _ => True
  | _, _ => False
  end.
Proof.
  induction 1 as [|[l s] [l' s'] df df' [Hl Hs] _ IH]; simpl; [exact I|].
  simpl in Hl, Hs. subst l'. destruct (String.eqb l col); [exact Hs | exact IH].
Qed.

Lemma counts_shuffled df df' id : shuffled df df' -> counts df id = counts df' id.
Proof.
  intros Hsh. unfold counts, pref_columns. rewrite <- (shuffled_columns _ _ Hsh).
  apply fold_left_ext_in. intros pc col _. unfold step.
  destruct (digit_rank col); trivial.
  pose proof (shuffled_getitem df df' col Hsh) as Hg.
  destruct (getitem df col) as [s|], (getitem df' col) as [s'|]; try tauto.
  now rewrite (count_eq_perm s s' _ Hg).
Qed.

Lemma last_char_rank l l' :
  startswith pref_prefix l = true -> startswith pref_prefix l' = true ->
  last_char l = last_char l' -> rank_of l = rank_of l'.
Proof. unfold rank_of, digit_rank. now intros -> -> ->. Qed.

Lemma dict_set_same {V : Type} (d : dict V) k v :
  NoDup (keys d) -> In (k, v) d -> dict_set d k v = d.
Proof.
  induction d as [|[k' v'] rest IH]; simpl; [tauto|].
  intros Hnd Hin. inversion Hnd as [|? ? Hnotin Hnd']; subst.
  destruct (String.eqb_spec k' k) as [->|Hne].
  - destruct Hin as [E|Hin]; [now injection E as ->|].
    exfalso. apply Hnotin. change k with (fst (k, v)). now apply in_map.
  - destruct Hin as [E|Hin]; [congruence|]. now rewrite IH.
Qed.

Lemma first_name_app (courses_df extra : CourseFrame) id :
  In id (map CourseID courses_df) ->
  first_name (courses_df ++ extra)%list id = first_name courses_df id.
Proof.
  intros Hin. unfold first_name, lookup_name. rewrite filter_app, map_app.
  apply in_map_iff in Hin as [r [E Hr]].
  assert (Hf : In r (filter (fun r => CourseID r =? id) courses_df)).
  { apply filter_In. split; [exact Hr | now apply Z.eqb_eq]. }
  destruct (filter (fun r => CourseID r =? id) courses_df); [destruct Hf | reflexivity].
Qed.

Lemma NoDup_map_eq {A B : Type} (f : A -> B) l a b :
  NoDup (map f l) -> In a l -> In b l -> f a = f b -> a = b.
Proof.
  induction l as [|x rest IH]; simpl; [tauto|].
  intros Hnd Ha Hb Hab. inversion Hnd as [|? ? Hnotin Hnd']; subst.
  destruct Ha as [->|Ha], Hb as [->|Hb]; trivial.
  - exfalso. apply Hnotin. rewrite Hab. now apply in_map.
  - exfalso. apply Hnotin. rewrite <- Hab. now apply in_map.
  - now apply IH.
Qed.

(** A list sorted by score whose scores are all different is the only
    sorted arrangement of its elements. *)
Lemma sorted_by_score_unique (l1 l2 : list row) :
  Permutation l1 l2 -> sorted_by_score l1 -> sorted_by_score l2 ->
  NoDup (map (fun kr : row => weighted_score (snd kr)) l1) ->
  l1 = l2.
Proof.
  revert l2. induction l1 as [|a t IH]; intros l2 Hp Hs1 Hs2 Hnd.
  - now apply Permutation_nil in Hp.
  - destruct l2 as [|b t2]; [apply Permutation_sym, Permutation_nil in Hp; discriminate|].
    apply StronglySorted_inv in Hs1 as [Hs1 Ha]. apply StronglySorted_inv in Hs2 as [Hs2 Hb].
    rewrite Forall_forall in Ha, Hb.
    assert (Hba : weighted_score (snd b) <= weighted_score (snd a)).
    { assert (Hin : In b (a :: t))
        by (apply (Permutation_in _ (Permutation_sym Hp)); now left).
      destruct Hin as [<-|Hin]; [lia | now apply Ha]. }
    assert (Hab : weighted_score (snd a) <= weighted_score (snd b)).
    { assert (Hin : In a (b :: t2)) by (apply (Permutation_in _ Hp); now left).
      destruct Hin as [<-|Hin]; [lia | now apply Hb]. }
    assert (E : a = b).
    { apply (NoDup_map_eq (fun kr : row => weighted_score (snd kr)) (a :: t)); trivial.
      - now left.
      - apply (Permutation_in _ (Permutation_sym Hp)). now left.
      - cbv beta. lia. }
    subst b. f_equal. apply IH; trivial.
    + now apply Permutation_cons_inv in Hp.
    + now inversion Hnd.
Qed.

End Invariance.

(** X5. With distinct labels, the order of the columns of the preference
    frame does not bear on the result. *)
Theorem column_order_irrelevant `{SortValues} (df df' : DataFrame)
  (courses_df : CourseFrame) :
  NoDup (columns df) -> Permutation df df' ->
  analyze_course_popularity (Some df') courses_df =
  analyze_course_popularity (Some df) courses_df.
Proof.
  intros Hnd Hp. apply analyze_counts. intros id.
  apply counts_by_mentions; trivial.
  - apply (Permutation_NoDup (l := columns df)); [|exact Hnd].
    unfold columns. now apply Permutation_map.
  - intros k. symmetry. now apply mentions_perm.
Qed.

Lemma column_order_irrelevant_witness :
  analyze_course_popularity (H := Sorters.stable)
    (Some [("kurz2", [Num 2; Num 1; NaN]); ("kurz1", [Num 1; Num 1; Num 2])])
    Example.courses =
  analyze_course_popularity (H := Sorters.stable)
    (Some [("kurz1", [Num 1; Num 1; Num 2]); ("kurz2", [Num 2; Num 1; NaN])])
    Example.courses.
Proof.
  apply (@column_order_irrelevant Sorters.stable
           [("kurz1", [Num 1; Num 1; Num 2]); ("kurz2", [Num 2; Num 1; NaN])]
           [("kurz2", [Num 2; Num 1; NaN]); ("kurz1", [Num 1; Num 1; Num 2])]
           Example.courses).
  - nodup_labels.
  - apply perm_swap.
Defined.

(** X6. The order of the students does not bear on the result: a frame
    with the same labels and, under each label, the same cells in another
    order gives the same table. *)
Theorem student_order_irrelevant `{SortValues} (df df' : DataFrame)
  (courses_df : CourseFrame) :
  shuffled df df' ->
  analyze_course_popularity (Some df') courses_df =
  analyze_course_popularity (Some df) courses_df.
Proof.
  intros Hsh. apply analyze_counts. intros id. symmetry. now apply counts_shuffled.
Qed.

Lemma student_order_irrelevant_witness :
  analyze_course_popularity (H := Sorters.stable)
    (Some [("kurz1", [Num 2; Num 1; Num 1]); ("kurz2", [NaN; Num 2; Num 1])])
    Example.courses =
  analyze_course_popularity (H := Sorters.stable)
    (Some [("kurz1", [Num 1; Num 1; Num 2]); ("kurz2", [Num 2; Num 1; NaN])])
    Example.courses.
Proof.
  apply (@student_order_irrelevant Sorters.stable
           [("kurz1", [Num 1; Num 1; Num 2]); ("kurz2", [Num 2; Num 1; NaN])]
           [("kurz1", [Num 2; Num 1; Num 1]); ("kurz2", [NaN; Num 2; Num 1])]
           Example.courses).
  repeat constructor; simpl.
  - apply (Permutation_trans (l' := [Num 1; Num 2; Num 1]));
      [apply perm_skip, perm_swap | apply perm_swap].
  - apply (Permutation_trans (l' := [Num 2; NaN; Num 1]));
      [apply perm_skip, perm_swap | apply perm_swap].
Defined.

(** X7. The rank of a preference column is read from the last character
    of its label alone: with distinct labels, renaming a column to another
    label with the prefix and the same last character does not change the
    result (so 'kurz12' counts as a second preference, like 'kurz2'). *)
Theorem rank_from_last_character `{SortValues} (df1 df2 : DataFrame)
  (label label' : string) (s : Series) (courses_df : CourseFrame) :
  NoDup (columns (df1 ++ (label, s) :: df2)%list) ->
  NoDup (columns (df1 ++ (label', s) :: df2)%list) ->
  startswith pref_prefix label = true ->
  startswith pref_prefix label' = true ->
  last_char label = last_char label' ->
  analyze_course_popularity (Some (df1 ++ (label', s) :: df2)%list) courses_df =
  analyze_course_popularity (Some (df1 ++ (label, s) :: df2)%list) courses_df.
Proof.
  intros Hnd Hnd' Hsw Hsw' Hlast. apply analyze_counts. intros id.
  apply counts_by_mentions; trivial. intros k.
  unfold mentions, cells_of_rank. rewrite !flat_map_app. simpl.
  unfold has_rank_k. now rewrite (last_char_rank label label' Hsw Hsw' Hlast).
Qed.

Lemma rank_from_last_character_witness :
  analyze_course_popularity (H := Sorters.stable)
    (Some ([("kurz1", [Num 1; Num 2])] ++ ("kurz2", [Num 2; Num 1]) :: [])%list)
    Example.courses =
  analyze_course_popularity (H := Sorters.stable)
    (Some ([("kurz1", [Num 1; Num 2])] ++ ("kurz12", [Num 2; Num 1]) :: [])%list)
    Example.courses.
Proof.
  apply (@rank_from_last_character Sorters.stable
           [("kurz1", [Num 1; Num 2])] [] "kurz12" "kurz2" [Num 2; Num 1]
           Example.courses).
  - nodup_labels.
  - nodup_labels.
  - reflexivity.
  - reflexivity.
  - reflexivity.
Defined.

(** X8. A catalogue row added at the end for a course that is already
    listed changes nothing: the course keeps its one record, under the name
    of its first row. *)
Theorem repeated_catalogue_row `{SortValues} (df : DataFrame)
  (courses_df : CourseFrame) (again : CourseRow) :
  In (CourseID again) (map CourseID courses_df) ->
  analyze_course_popularity (Some df) (courses_df ++ [again])%list =
  analyze_course_popularity (Some df) courses_df.
Proof.
  intros Hin. unfold analyze_course_popularity. rewrite !build_popularity_eq.
  replace (popularity df (courses_df ++ [again])%list) with (popularity df courses_df);
    [reflexivity|].
  assert (Hput : forall d id, In id (map CourseID courses_df) ->
            put df (courses_df ++ [again])%list d id = put df courses_df d id).
  { intros d id Hid. unfold put, entry. now rewrite first_name_app. }
  unfold popularity at 2. rewrite map_app, fold_left_app.
  rewrite (fold_left_ext_in (put df (courses_df ++ [again])%list) (put df courses_df)
             (map CourseID courses_df) [])
    by (intros d id Hid; now apply Hput).
  fold (popularity df courses_df). simpl. rewrite Hput by exact Hin.
  unfold put. destruct (qualifies df (CourseID again)) eqn:Hq; [|reflexivity].
  symmetry. apply dict_set_same.
  - apply popularity_well_formed.
  - apply fold_put_has; trivial; [apply incl_refl|].
    split; [constructor | intros k r []].
Qed.

Lemma repeated_catalogue_row_witness :
  analyze_course_popularity (H := Sorters.stable) (Some Example.prefs)
    (Example.courses ++ [ {| CourseID := 1; name := "Analysis" |} ])%list =
  analyze_course_popularity (H := Sorters.stable) (Some Example.prefs) Example.courses.
Proof.
  apply (@repeated_catalogue_row Sorters.stable Example.prefs Example.courses
           {| CourseID := 1; name := "Analysis" |}).
  simpl. tauto.
Defined.

Section EmptyInputs.




End EmptyInputs.


(** X10. When the weighted scores of the records are all different, the
    table does not depend on the sorting routine: any two routines that
    meet the contract of [sort_values] give the same table. *)
Theorem order_fixed_without_ties (S1 S2 : SortValues) (df : DataFrame)
  (courses_df : CourseFrame) (d : dict PopularityRecord) :
  build_popularity df courses_df = Ok d ->
  NoDup (map (fun kr : row => weighted_score (snd kr)) d) ->
  exists out,
    analyze_course_popularity (H := S1) (Some df) courses_df = Ok out /\
    analyze_course_popularity (H := S2) (Some df) courses_df = Ok out.
Proof.
  intros Hd Hnd. rewrite build_popularity_eq in Hd. injection Hd as <-.
  destruct (analyze_returns (H := S1) df courses_df) as [o1 [E1 [C1 [P1 Q1]]]].
  destruct (analyze_returns (H := S2) df courses_df) as [o2 [E2 [C2 [P2 Q2]]]].
  exists o1. split; [exact E1|]. rewrite E2. f_equal.
  destruct o1 as [c1 r1], o2 as [c2 r2]. simpl in *. subst c1 c2. f_equal.
  symmetry. apply sorted_by_score_unique; trivial.
  - eapply Permutation_trans; [apply Permutation_sym, P1 | exact P2].
  - apply (Permutation_NoDup (l := map (fun kr : row => weighted_score (snd kr))
                                    (popularity df courses_df))); [|exact Hnd].
    now apply Permutation_map.
Qed.

Lemma order_fixed_without_ties_witness :
  exists out,
    analyze_course_popularity (H := Sorters.stable) (Some Example.prefs) Example.courses
      = Ok out /\
    analyze_course_popularity (H := Sorters.unstable) (Some Example.prefs) Example.courses
      = Ok out.
Proof.
  eapply (@order_fixed_without_ties Sorters.stable Sorters.unstable
            Example.prefs Example.courses).
  - vm_compute. reflexivity.
  - repeat constructor; simpl; intuition discriminate.
Defined.

(** * Properties of the saving and of the plotting *)




Section SortAnyColumn.

Context `{SortValues}.







End SortAnyColumn.

Section Files.

Lemma dict_get_set {V : Type} (d : dict V) k v : dict_get (dict_set d k v) k = Some v.
Proof.
  induction d as [|[k' v'] rest IH]; simpl.
  - now rewrite String.eqb_refl.
  - destruct (String.eqb k' k) eqn:E; simpl; [now rewrite String.eqb_refl|].
    now rewrite E.
Qed.

Lemma dict_get_set_other {V : Type} (d : dict V) k v k0 :
  k0 <> k -> dict_get (dict_set d k v) k0 = dict_get d k0.
Proof.
  intros Hne. induction d as [|[k' v'] rest IH]; simpl.
  - destruct (String.eqb_spec k k0); [congruence | reflexivity].
  - destruct (String.eqb_spec k' k) as [->|Hk]; simpl.
    + destruct (String.eqb_spec k k0); [congruence | reflexivity].
    + destruct (String.eqb k' k0); [reflexivity | exact IH].
Qed.

End Files.



(** X12. Saving a table that has rows but no 'weighted_score' column
    raises KeyError before anything is done: no directory is made, no file
    written, no line printed. *)
Theorem save_without_score_column `{SortValues} (f : PopularityFrame)
  (year : option year_arg) (output_dir : option string) (w : World) :
  empty f = false ->
  existsb (String.eqb "weighted_score") (pf_columns f) = false ->
  save_popularity_data f year output_dir w = (w, Raise (KeyError "weighted_score")).
Proof.
  intros Hne Hcol. unfold save_popularity_data, sort_values. now rewrite Hne, Hcol.
Qed.

Lemma save_without_score_column_witness :
  save_popularity_data (H := Sorters.stable)
    {| pf_columns := ["course_id"; "name"]; pf_rows := [("1", Example.algebra)] |}
    None (Some "out") Example.world0 =
  (Example.world0, Raise (KeyError "weighted_score")).
Proof.
  apply (@save_without_score_column Sorters.stable
           {| pf_columns := ["course_id"; "name"]; pf_rows := [("1", Example.algebra)] |}
           None (Some "out") Example.world0); reflexivity.
Defined.

(** Arguments that Python takes for false are treated as absent: the
    year 0 and the empty year give the file name without a year, and the
    empty output directory saves in the current directory without making
    one. *)
Lemma save_falsy_arguments `{SortValues} (f : PopularityFrame)
  (year : option year_arg) (output_dir : option string) (w : World) :
  save_popularity_data f (Some (YearInt 0)) output_dir w =
    save_popularity_data f None output_dir w /\
  save_popularity_data f (Some (YearStr "")) output_dir w =
    save_popularity_data f None output_dir w /\
  save_popularity_data f year (Some "") w = save_popularity_data f year None w.
Proof. repeat split. Qed.

Section HeadTail.

Context {A : Type}.



End HeadTail.





(** * load_course_data *)

Module Loader.

(** The directory the catalogues are read from. *)
Definition course_id_path : string := "data/course_id_tables".

(** [s] ends with [suf]. *)
Fixpoint ends_with (suf s : string) : bool :=
  if String.eqb suf s then true
  else match s with
       | EmptyString => false
       | String _ rest => ends_with suf rest
       end.

(** The name matches the pattern 'lp_courses_*.csv': it starts with
    'lp_courses_' and ends with '.csv' (the two cannot overlap). *)
Definition matches_pattern (name : string) : bool :=
  String.prefix "lp_courses_" name && ends_with ".csv" name.

(** The text before the last [sep] and the text after it, when [sep]
    occurs in [s]. *)
Fixpoint rpartition (sep : ascii) (s : string) : option (string * string) :=
  match s with
  | EmptyString => None
  | String c rest =>
      match rpartition sep rest with
      | Some (a, b) => Some (String c a, b)
      | None => if Ascii.eqb c sep then Some (EmptyString, rest) else None
      end
  end.

(** [Path(name).stem]: the name without its last suffix; a dot at the
    start or at the end of the name starts no suffix. *)
Definition stem (name : string) : string :=
  match rpartition "." name with
  | Some (a, b) => if String.eqb a "" || String.eqb b "" then name else a
  | None => name
  end.

(** [s.split(sep)[-1]] *)
Definition split_last (sep : ascii) (s : string) : string :=
  match rpartition sep s with
  | Some (_, b) => b
  | None => s
  end.

(** [csv_file.stem.split('_')[-1]] *)
Definition year_of (csv_file : string) : string := split_last "_" (stem csv_file).

(** The body of the loop over the files found. *)
Definition load_file (read_csv : string -> result CourseFrame)
  (course_data : dict CourseFrame) (csv_file : string) : result (dict CourseFrame) :=
  let year := year_of csv_file in
  df <- read_csv (path_div course_id_path csv_file) ;;
  Ok (dict_set course_data year df).

(** [load_course_data()].  [listing] holds the names in the directory
    'data/course_id_tables', in the order the glob goes through them, and
    [read_csv] is the pandas reader on the files at hand. *)
Definition load_course_data (listing : list string)
  (read_csv : string -> result CourseFrame) : result (dict CourseFrame) :=
  for_each (load_file read_csv) (filter matches_pattern listing) [].

(** The character [c] occurs in [s]. *)
Fixpoint has_char (c : ascii) (s : string) : bool :=
  match s with
  | EmptyString => false
  | String c' rest => Ascii.eqb c' c || has_char c rest
  end.

(** The dict after the files [names] have been read without error. *)
Definition loaded (read_csv : string -> result CourseFrame)
  (names : list string) (d : dict CourseFrame) : dict CourseFrame :=
  fold_left
    (fun d name =>
       match read_csv (path_div course_id_path name) with
       | Ok t => dict_set d (year_of name) t
       | Raise _ => d
       end)
    names d.

End Loader.

Import Loader.

Section LoaderFacts.

Lemma rpartition_none sep s : has_char sep s = false -> rpartition sep s = None.
Proof.
  induction s as [|c rest IH]; simpl; [reflexivity|].
  intros H. apply orb_false_iff in H as [Hc Hrest]. now rewrite IH, Hc.
Qed.

Lemma rpartition_some sep s a b :
  rpartition sep s = Some (a, b) -> has_char sep b = false.
Proof.
  revert a. induction s as [|c rest IH]; simpl; intros a; [discriminate|].
  destruct (rpartition sep rest) as [[a' b']|] eqn:E.
  - intros H. injection H as _ <-. now apply (IH a').
  - destruct (Ascii.eqb c sep); [|discriminate].
    intros H. injection H as _ <-.
    clear IH. revert E. generalize rest as t.
    induction t as [|c' t IHt]; simpl; [reflexivity|].
    destruct (rpartition sep t) as [[? ?]|]; [discriminate|].
    destruct (Ascii.eqb c' sep); [discriminate|]. intros _. now apply IHt.
Qed.

Lemma rpartition_app sep a b :
  has_char sep b = false -> rpartition sep (a ++ String sep b) = Some (a, b).
Proof.
  intros Hb. induction a as [|c a IH]; simpl.
  - now rewrite (rpartition_none sep b Hb), Ascii.eqb_refl.
  - now rewrite IH.
Qed.

Lemma ends_with_app suf a : ends_with suf (a ++ suf) = true.
Proof.
  induction a as [|c a IH]; simpl.
  - destruct suf; simpl; [reflexivity|]. now rewrite Ascii.eqb_refl, String.eqb_refl.
  - destruct (String.eqb suf (String c (a ++ suf))); [reflexivity | exact IH].
Qed.

Lemma split_last_clean sep s : has_char sep (split_last sep s) = false.
Proof.
  unfold split_last. destruct (rpartition sep s) as [[a b]|] eqn:E.
  - now apply rpartition_some in E.
  - revert E. induction s as [|c rest IH]; simpl; [reflexivity|].
    destruct (rpartition sep rest) as [[? ?]|]; [discriminate|].
    destruct (Ascii.eqb c sep); [discriminate|]. intros _. now apply IH.
Qed.

Lemma for_each_loaded read_csv names d :
  (forall name, In name names ->
     exists t, read_csv (path_div course_id_path name) = Ok t) ->
  for_each (load_file read_csv) names d = Ok (loaded read_csv names d).
Proof.
  revert d. induction names as [|name rest IH]; intros d Hall; [reflexivity|].
  destruct (Hall name (or_introl eq_refl)) as [t Ht].
  cbn [for_each]. unfold load_file at 1. rewrite Ht. cbn [bind].
  rewrite IH by (intros n Hn; apply Hall; now right).
  unfold loaded. cbn [fold_left]. now rewrite Ht.
Qed.

Lemma loaded_keys read_csv names d :
  NoDup (keys d) -> NoDup (keys (loaded read_csv names d)).
Proof.
  revert d. induction names as [|name rest IH]; intros d Hnd; [exact Hnd|].
  unfold loaded. cbn [fold_left]. apply IH.
  destruct (read_csv (path_div course_id_path name)); [now apply dict_set_nodup | exact Hnd].
Qed.

Lemma dict_get_in {V : Type} (d : dict V) k v : dict_get d k = Some v -> In (k, v) d.
Proof.
  induction d as [|[k' v'] rest IH]; simpl; [discriminate|].
  destruct (String.eqb_spec k' k) as [->|_].
  - intros E. injection E as ->. now left.
  - intros E. right. now apply IH.
Qed.

Lemma loaded_from read_csv names d year t :
  dict_get (loaded read_csv names d) year = Some t ->
  dict_get d year = Some t \/
  exists name, In name names /\ year_of name = year /\
               read_csv (path_div course_id_path name) = Ok t.
Proof.
  revert d. induction names as [|name rest IH]; intros d Hget; [now left|].
  unfold loaded in Hget. cbn [fold_left] in Hget. apply IH in Hget as [Hget|Hget].
  - destruct (read_csv (path_div course_id_path name)) as [t0|] eqn:Er; [|now left].
    destruct (String.eqb_spec year (year_of name)) as [->|Hne].
    + rewrite dict_get_set in Hget. injection Hget as ->.
      right. exists name. repeat split; trivial. now left.
    + rewrite dict_get_set_other in Hget by trivial. now left.
  - destruct Hget as [n [Hn [Hy Hr]]]. right. exists n. repeat split; trivial. now right.
Qed.

Lemma loaded_keeps read_csv names d year t :
  dict_get d year = Some t ->
  (forall name, In name names -> year_of name <> year) ->
  dict_get (loaded read_csv names d) year = Some t.
Proof.
  revert d. induction names as [|name rest IH]; intros d Hget Hother; [exact Hget|].
  unfold loaded. cbn [fold_left]. apply IH.
  - destruct (read_csv (path_div course_id_path name)); [|exact Hget].
    rewrite dict_get_set_other; [exact Hget|].
    intros E. apply (Hother name (or_introl eq_refl)). now symmetry.
  - intros n Hn. apply Hother. now right.
Qed.

End LoaderFacts.

Section LoaderKeys.

Lemma in_keys_get {V : Type} (d : dict V) k :
  In k (keys d) -> exists v, dict_get d k = Some v.
Proof.
  induction d as [|[k' v'] rest IH]; simpl; [tauto|].
  destruct (String.eqb_spec k' k) as [->|Hne]; [now exists v'|].
  intros [E|Hin]; [congruence | now apply IH].
Qed.

Lemma loaded_key_stays read_csv names d year :
  (exists t, dict_get d year = Some t) ->
  exists t, dict_get (loaded read_csv names d) year = Some t.
Proof.
  revert d. induction names as [|name rest IH]; intros d Hget; [exact Hget|].
  unfold loaded. cbn [fold_left]. apply IH.
  destruct (read_csv (path_div course_id_path name)) as [t0|]; [|exact Hget].
  destruct (String.eqb_spec year (year_of name)) as [->|Hne].
  - exists t0. apply dict_get_set.
  - now rewrite dict_get_set_other.
Qed.

Lemma loaded_has read_csv names d name :
  In name names ->
  (forall n, In n names -> exists t, read_csv (path_div course_id_path n) = Ok t) ->
  exists t, dict_get (loaded read_csv names d) (year_of name) = Some t.
Proof.
  revert d. induction names as [|n rest IH]; intros d Hin Hall; [destruct Hin|].
  unfold loaded. cbn [fold_left].
  destruct (Hall n (or_introl eq_refl)) as [t Ht]. rewrite Ht.
  destruct Hin as [->|Hin].
  - apply loaded_key_stays. exists t. apply dict_get_set.
  - apply IH; [exact Hin|]. intros m Hm. apply Hall. now right.
Qed.

Lemma string_app_assoc (a b c : string) : (a ++ b) ++ c = a ++ b ++ c.
Proof. induction a as [|x a IH]; simpl; [reflexivity | now rewrite IH]. Qed.

End LoaderKeys.

(** X15. The file name made from a year is found by the pattern and gives
    the year back: for a year without underscore, 'lp_courses_<year>.csv'
    matches 'lp_courses_*.csv' and the key computed from it is the year. *)
Theorem year_of_file_name (y : string) :
  has_char "_" y = false ->
  matches_pattern ("lp_courses_" ++ y ++ ".csv") = true /\
  year_of ("lp_courses_" ++ y ++ ".csv") = y.
Proof.
  intros Hy.
  assert (Hname : "lp_courses_" ++ y ++ ".csv" = ("lp_courses_" ++ y) ++ String "." "csv")
    by (symmetry; apply string_app_assoc).
  split.
  - unfold matches_pattern. apply andb_true_iff. split.
    + simpl. now destruct (y ++ ".csv").
    + rewrite Hname. apply (ends_with_app ".csv").
  - unfold year_of, stem. rewrite Hname.
    rewrite rpartition_app by reflexivity.
    change (("lp_courses_" ++ y =? "")%string) with false. cbn [orb String.eqb].
    unfold split_last.
    change ("lp_courses_" ++ y) with ("lp_courses" ++ String "_" y).
    now rewrite rpartition_app.
Qed.

Lemma year_of_file_name_witness :
  matches_pattern ("lp_courses_" ++ "2023" ++ ".csv") = true /\
  year_of ("lp_courses_" ++ "2023" ++ ".csv") = "2023".
Proof. apply (year_of_file_name "2023"). reflexivity. Defined.

(** X16. When every file found by the pattern can be read, the load
    returns a dict whose keys are pairwise distinct, hold no underscore, and
    are the years of the files found: every file found has its year as a
    key, and the table under a key was read from a file found with that
    year. *)
Theorem load_course_data_keys (listing : list string)
  (read_csv : string -> result CourseFrame) :
  (forall name, In name listing -> matches_pattern name = true ->
     exists t, read_csv (path_div course_id_path name) = Ok t) ->
  exists course_data,
    load_course_data listing read_csv = Ok course_data /\
    NoDup (keys course_data) /\
    (forall year, In year (keys course_data) -> has_char "_" year = false) /\
    (forall name, In name listing -> matches_pattern name = true ->
       exists t, dict_get course_data (year_of name) = Some t) /\
    (forall year t, dict_get course_data year = Some t ->
       exists name, In name listing /\ matches_pattern name = true /\
                    year_of name = year /\
                    read_csv (path_div course_id_path name) = Ok t).
Proof.
  intros Hread.
  set (names := filter matches_pattern listing).
  assert (Hall : forall name, In name names ->
            exists t, read_csv (path_div course_id_path name) = Ok t).
  { intros name Hin. apply filter_In in Hin as [Hin Hm]. now apply Hread. }
  assert (Hfrom : forall year t, dict_get (loaded read_csv names []) year = Some t ->
            exists name, In name listing /\ matches_pattern name = true /\
                         year_of name = year /\
                         read_csv (path_div course_id_path name) = Ok t).
  { intros year t Hget. apply loaded_from in Hget as [Hget|[name [Hin [Hy Hr]]]];
      [discriminate|].
    apply filter_In in Hin as [Hin Hm]. now exists name. }
  exists (loaded read_csv names []).
  split; [now apply for_each_loaded|]. split; [apply loaded_keys; constructor|].
  split; [|split; [|exact Hfrom]].
  - intros year Hin. apply in_keys_get in Hin as [t Hget].
    apply Hfrom in Hget as [name [_ [_ [<- _]]]]. apply split_last_clean.
  - intros name Hin Hm. apply loaded_has; [|exact Hall].
    apply filter_In. now split.
Qed.

Lemma load_course_data_keys_witness :
  exists course_data,
    load_course_data ["lp_courses_2023.csv"; "notes.txt"; "lp_courses_2024.csv"]
      (fun _ => Ok Example.courses) = Ok course_data /\
    NoDup (keys course_data) /\
    (forall year, In year (keys course_data) -> has_char "_" year = false) /\
    (forall name,
       In name ["lp_courses_2023.csv"; "notes.txt"; "lp_courses_2024.csv"] ->
       matches_pattern name = true ->
       exists t, dict_get course_data (year_of name) = Some t) /\
    (forall year t, dict_get course_data year = Some t ->
       exists name,
         In name ["lp_courses_2023.csv"; "notes.txt"; "lp_courses_2024.csv"] /\
         matches_pattern name = true /\ year_of name = year /\
         (fun _ : string => Ok Example.courses) (path_div course_id_path name) = Ok t).
Proof.
  apply (load_course_data_keys
           ["lp_courses_2023.csv"; "notes.txt"; "lp_courses_2024.csv"]
           (fun _ => Ok Example.courses)).
  intros name _ _. now exists Example.courses.
Defined.

Section LoaderOrder.

Lemma for_each_app {S X : Type} (body : S -> X -> result S) (a b : list X) (s : S) :
  for_each body (a ++ b)%list s = bind (for_each body a s) (for_each body b).
Proof.
  revert s. induction a as [|x a IH]; intros s; simpl; [reflexivity|].
  destruct (body s x); simpl; [apply IH | reflexivity].
Qed.

Lemma loaded_app read_csv (a b : list string) d :
  loaded read_csv (a ++ b)%list d = loaded read_csv b (loaded read_csv a d).
Proof. unfold loaded. apply fold_left_app. Qed.

End LoaderOrder.

(** X17. When two files found give the same year, the one met later
    wins: the table under a year is the one read from the last file found
    with that year. *)
Theorem later_file_wins (before after : list string) (name : string)
  (read_csv : string -> result CourseFrame) (t : CourseFrame) :
  (forall n, In n (before ++ name :: after)%list -> matches_pattern n = true ->
     exists t', read_csv (path_div course_id_path n) = Ok t') ->
  matches_pattern name = true ->
  read_csv (path_div course_id_path name) = Ok t ->
  (forall n, In n after -> matches_pattern n = true -> year_of n <> year_of name) ->
  exists course_data,
    load_course_data (before ++ name :: after)%list read_csv = Ok course_data /\
    dict_get course_data (year_of name) = Some t.
Proof.
  intros Hread Hm Ht Hafter.
  exists (loaded read_csv (filter matches_pattern (before ++ name :: after)%list) []).
  split.
  - apply for_each_loaded. intros n Hn. apply filter_In in Hn as [Hn Hmn].
    now apply Hread.
  - rewrite filter_app. cbn [filter]. rewrite Hm, loaded_app.
    unfold loaded at 1. cbn [fold_left]. rewrite Ht.
    apply loaded_keeps; [apply dict_get_set|].
    intros n Hn. apply filter_In in Hn as [Hn Hmn]. now apply Hafter.
Qed.

Lemma later_file_wins_witness :
  exists course_data,
    load_course_data (["lp_courses_old_2023.csv"] ++ "lp_courses_new_2023.csv" :: [])%list
      (fun path =>
         if String.eqb path "data/course_id_tables/lp_courses_new_2023.csv"
         then Ok Example.courses else Ok [])
      = Ok course_data /\
    dict_get course_data (year_of "lp_courses_new_2023.csv") = Some Example.courses.
Proof.
  apply (later_file_wins ["lp_courses_old_2023.csv"] [] "lp_courses_new_2023.csv"
           (fun path =>
              if String.eqb path "data/course_id_tables/lp_courses_new_2023.csv"
              then Ok Example.courses else Ok [])
           Example.courses).
  - intros n _ _.
    destruct (String.eqb (path_div course_id_path n)
                "data/course_id_tables/lp_courses_new_2023.csv"); eexists; reflexivity.
  - reflexivity.
  - reflexivity.
  - intros n [].
Defined.

(** X18. A file found by the pattern that cannot be read ends the load:
    the error of the first such file is raised, and no dict is returned,
    whatever was read before and whatever comes after. *)
Theorem unreadable_file_raises (before after : list string) (name : string)
  (read_csv : string -> result CourseFrame) (e : exn) :
  (forall n, In n before -> matches_pattern n = true ->
     exists t, read_csv (path_div course_id_path n) = Ok t) ->
  matches_pattern name = true ->
  read_csv (path_div course_id_path name) = Raise e ->
  load_course_data (before ++ name :: after)%list read_csv = Raise e.
Proof.
  intros Hread Hm He. unfold load_course_data.
  rewrite filter_app. cbn [filter]. rewrite Hm, for_each_app.
  rewrite for_each_loaded.
  - cbn [bind for_each]. unfold load_file at 1. now rewrite He.
  - intros n Hn. apply filter_In in Hn as [Hn Hmn]. now apply Hread.
Qed.

Lemma unreadable_file_raises_witness :
  load_course_data (["lp_courses_2023.csv"] ++ "lp_courses_2024.csv" :: ["lp_courses_2025.csv"])%list
    (fun path =>
       if String.eqb path "data/course_id_tables/lp_courses_2024.csv"
       then Raise (ValueError "No columns to parse from file") else Ok Example.courses)
  = Raise (ValueError "No columns to parse from file").
Proof.
  apply (unreadable_file_raises ["lp_courses_2023.csv"] ["lp_courses_2025.csv"]
           "lp_courses_2024.csv"
           (fun path =>
              if String.eqb path "data/course_id_tables/lp_courses_2024.csv"
              then Raise (ValueError "No columns to parse from file")
              else Ok Example.courses)
           (ValueError "No columns to parse from file")).
  - intros n [<-|[]] _. eexists. reflexivity.
  - reflexivity.
  - reflexivity.
Defined.

Section Pipeline.

Context `{SortValues}.


End Pipeline.


